(** * Scoring and trade-decision core of the trading bot

    A shallow embedding of the signal scoring, signal interpretation,
    position lifecycle and trade execution code, with the properties the
    specification states about them.

    Python floats are modelled as rationals ([Q]): every threshold test,
    sum, product and quotient is the exact one, and rounding is outside
    the model.  A division by zero is modelled as what it is in the
    source: [ZeroDivisionError] for Python floats, an infinity or NaN for
    numpy and pandas values.  Equality of computed numbers is [Qeq]
    ([==]).  The first part holds the definitions, one module per source
    class; the second part holds the theorems. *)

From Stdlib Require Import QArith Qabs Lqa ZArith List Bool Sorted.
From Stdlib Require Import DecimalString.
From stdpp Require Import base strings gmap list.

Open Scope Q_scope.

(** * Part I: the program *)

(** ** Python and numpy built-ins used by the source *)

Module Py.

(** [max(a, b)]: the first argument unless the second is strictly larger. *)
Definition max (a b : Q) : Q := if Qlt_le_dec a b then b else a.

(** [min(a, b)]: the first argument unless the second is strictly smaller. *)
Definition min (a b : Q) : Q := if Qlt_le_dec b a then b else a.

(** [abs(x)] *)
Definition abs (x : Q) : Q := if Qlt_le_dec x 0 then - x else x.

(** [a > b], [a < b], [a >= b], [a <= b] and [a == b] as booleans. *)
Definition gt (a b : Q) : bool := if Qlt_le_dec b a then true else false.
Definition lt (a b : Q) : bool := gt b a.
Definition ge (a b : Q) : bool := negb (lt a b).
Definition le (a b : Q) : bool := negb (gt a b).
Definition eq (a b : Q) : bool := Qeq_bool a b.

(** [int(x)]: truncation towards zero. *)
Definition int (x : Q) : Z := Z.quot (Qnum x) (Z.pos (Qden x)).

(** [str(n)] for an integer. *)
Definition str (n : Z) : string := NilZero.string_of_int (Z.to_int n).

(** [l[:n]]: the first [n] elements, or all but the last [-n] when [n]
    is negative. *)
Definition slice_to {A : Type} (n : Z) (l : list A) : list A :=
  if (0 <=? n)%Z then firstn (Z.to_nat n) l
  else firstn (length l - Z.to_nat (- n)) l.

(** [l[-k]] for [k >= 1]: [IndexError] ([None]) when [l] is too short. *)
Definition iloc_neg {A : Type} (k : nat) (l : list A) : option A :=
  match k with
  | O => None
  | S _ => if (k <=? length l)%nat then nth_error l (length l - k) else None
  end.

(** [series.tail(n)]: the last [n] elements (all of them when shorter). *)
Definition tail {A : Type} (n : nat) (l : list A) : list A :=
  skipn (length l - n) l.

(** [series.head(n)] *)
Definition head {A : Type} (n : nat) (l : list A) : list A := firstn n l.

(** [sum(l)] *)
Definition sum (l : list Q) : Q := fold_left Qplus l 0.

(** [sep.join(parts)] *)
Fixpoint join (sep : string) (parts : list string) : string :=
  match parts with
  | [] => EmptyString
  | [p] => p
  | p :: rest => String.append p (String.append sep (join sep rest))
  end.

(** [needle in hay] for strings. *)
Fixpoint contains (needle hay : string) : bool :=
  String.prefix needle hay ||
  match hay with
  | EmptyString => false
  | String _ rest => contains needle rest
  end.

(** [s.endswith(suffix)] *)
Definition endswith (suffix s : string) : bool :=
  (String.length suffix <=? String.length s)%nat &&
  String.eqb
    (String.substring (String.length s - String.length suffix)
                      (String.length suffix) s)
    suffix.

(** [s.replace(old, "")] for a non-empty [old]: occurrences are removed
    from left to right without overlap; [skip] counts the characters of
    the occurrence being removed that are still ahead. *)
Fixpoint remove_from (old : string) (skip : nat) (s : string) : string :=
  match s with
  | EmptyString => EmptyString
  | String c rest =>
      match skip with
      | S k => remove_from old k rest
      | O =>
          if String.prefix old s
          then remove_from old (String.length old - 1) rest
          else String c (remove_from old 0 rest)
      end
  end.

Definition remove (old s : string) : string := remove_from old 0 s.

(** [s.lower()] on ASCII letters; any other character is left as it
    is, where Python also folds letters outside ASCII. *)
Definition lower_ascii (c : Ascii.ascii) : Ascii.ascii :=
  let n := Ascii.nat_of_ascii c in
  if ((65 <=? n) && (n <=? 90))%nat then Ascii.ascii_of_nat (n + 32) else c.

Fixpoint lower (s : string) : string :=
  match s with
  | EmptyString => EmptyString
  | String c rest => String (lower_ascii c) (lower rest)
  end.

(** A numpy [float64] value: finite, an infinity, or NaN. *)
Inductive npfloat : Type :=
| Fin (x : Q)
| PosInf
| NegInf
| NaN.

(** [a / b] on numpy floats with finite operands: no exception. *)
Definition np_div (a b : Q) : npfloat :=
  if Qeq_bool b 0 then
    if gt a 0 then PosInf else if lt a 0 then NegInf else NaN
  else Fin (a / b).

(** [x > t] and [x < t] against a finite threshold; NaN compares false. *)
Definition np_gt (x : npfloat) (t : Q) : bool :=
  match x with
  | Fin v => gt v t
  | PosInf => true
  | NegInf => false
  | NaN => false
  end.

Definition np_lt (x : npfloat) (t : Q) : bool :=
  match x with
  | Fin v => lt v t
  | PosInf => false
  | NegInf => true
  | NaN => false
  end.

(** Comparison of two numpy floats; NaN compares false. *)
Definition np_gtf (a b : npfloat) : bool :=
  match a, b with
  | Fin x, Fin y => gt x y
  | Fin _, NegInf => true
  | PosInf, Fin _ => true
  | PosInf, NegInf => true
  | _, _ => false
  end.

Definition np_ltf (a b : npfloat) : bool := np_gtf b a.

(** [x * k] for a constant [k > 0]. *)
Definition np_scale (x : npfloat) (k : Q) : npfloat :=
  match x with
  | Fin v => Fin (v * k)
  | other => other
  end.

(** [(x - 1) * 100]: the percentage change carried by a ratio. *)
Definition np_pct (x : npfloat) : npfloat :=
  match x with
  | Fin v => Fin ((v - 1) * 100)
  | other => other
  end.

(** [series.mean()]: NaN for an empty series. *)
Definition mean (l : list Q) : npfloat :=
  match l with
  | [] => NaN
  | _ => Fin (sum l / inject_Z (Z.of_nat (length l)))
  end.

(** Sum of squared deviations from the mean. *)
Definition sq_dev (l : list Q) : Q :=
  let m := sum l / inject_Z (Z.of_nat (length l)) in
  sum (map (fun x => (x - m) * (x - m)) l).

(** [np.std(l)] squared: the population variance (ddof = 0). *)
Definition np_var (l : list Q) : Q :=
  sq_dev l / inject_Z (Z.of_nat (length l)).

(** [np.std(l) > t] and [np.std(l) < t] for a threshold [t >= 0]: the
    standard deviation is the non-negative square root of [np_var], so
    the test is the one on the squares. *)
Definition np_std_gt (l : list Q) (t : Q) : bool := gt (np_var l) (t * t).
Definition np_std_lt (l : list Q) (t : Q) : bool := lt (np_var l) (t * t).

(** [series.pct_change()]: NaN first, then [x_i / x_(i-1) - 1]. *)
Fixpoint pct_change_from (prev : Q) (l : list Q) : list npfloat :=
  match l with
  | [] => []
  | x :: rest =>
      match np_div x prev with
      | Fin r => Fin (r - 1)
      | other => other
      end :: pct_change_from x rest
  end.

Definition pct_change (l : list Q) : list npfloat :=
  match l with
  | [] => []
  | x :: rest => NaN :: pct_change_from x rest
  end.

(** The finite entries of a series, and whether it holds an infinity. *)
Definition finite_values (l : list npfloat) : list Q :=
  flat_map (fun x => match x with Fin v => [v] | _ => [] end) l.

Definition has_inf (l : list npfloat) : bool :=
  existsb (fun x => match x with PosInf | NegInf => true | _ => false end) l.

(** [series.std()] squared: the sample variance (ddof = 1) of the
    entries that are not NaN; [None] is NaN, the result for fewer than
    two entries or when an infinity is among them. *)
Definition pd_var (l : list npfloat) : option Q :=
  let xs := finite_values l in
  if has_inf l then None
  else if (length xs <? 2)%nat then None
  else Some (sq_dev xs / inject_Z (Z.of_nat (length xs - 1))).

(** [lo <= series.std() <= hi] and [series.std() > t] for non-negative
    bounds, tested on the squares. *)
Definition pd_std_between (l : list npfloat) (lo hi : Q) : bool :=
  match pd_var l with
  | Some v => le (lo * lo) v && le v (hi * hi)
  | None => false
  end.

Definition pd_std_gt (l : list npfloat) (t : Q) : bool :=
  match pd_var l with
  | Some v => gt v (t * t)
  | None => false
  end.



End Py.

(** ** The four scoring categories *)

Inductive category : Type := technical | fundamental | sentiment | momentum.

#[global] Instance category_eq_dec : EqDecision category.
Proof. solve_decision. Defined.

(** Iteration order of the four-key dictionaries of the source. *)
Definition categories : list category :=
  [technical; fundamental; sentiment; momentum].

(** ** Market data and dictionaries of results *)

(** One OHLCV bar of a data frame. *)
Record bar : Type := Bar {
  open_time : Z;
  open : Q;
  high : Q;
  low : Q;
  close : Q;
  volume : Q
}.

(** A value stored in a result dictionary: a number, or something that
    is not one (a string or a nested dictionary). *)
Inductive value : Type :=
| Num (x : Q)
| Other.

(** [d.get(key, default)] read as a number, at the point where the
    source first compares it.  [None] stands for the [TypeError] that
    comparing a non-number with a number raises. *)
Definition get_num (d : gmap string value) (key : string) (default : Q)
  : option Q :=
  match d !! key with
  | None => Some default
  | Some (Num x) => Some x
  | Some Other => None
  end.

(** Truth value of an optional dictionary: [None] and [{}] are false. *)
Definition truthy (d : option (gmap string value)) : bool :=
  match d with
  | None => false
  | Some m => negb (bool_decide (m = ∅))
  end.

(** ** [TechnicalAnalysis.get_comprehensive_analysis]

    The indicator arithmetic (pandas rolling windows, exponential
    smoothing, standard deviations) is a parameter [latest_data]: the
    dictionary of latest indicator values built from a frame, or [None]
    when building it raises.  The three variants differ in what they
    return for a frame of fewer than 50 bars. *)

Module TechnicalAnalysis.

Section Variants.

Variable latest_data : list bar -> option (gmap string value).

(** technical_analysis_1754752920275: [{}] when data is insufficient or
    an exception is caught. *)
Definition get_comprehensive_analysis (data : list bar)
  : option (gmap string value) :=
  if (length data <? 50)%nat then Some ∅
  else match latest_data data with
       | Some d => Some d
       | None => Some ∅
       end.

(** technical_analysis_1754765371397: [None] in both cases. *)
Definition get_comprehensive_analysis_talib (data : list bar)
  : option (gmap string value) :=
  if (length data <? 50)%nat then None
  else latest_data data.

(** technical_analysis_1754755845795: a dictionary with the single key
    ['error'], bound to a message, in both cases. *)
Definition get_comprehensive_analysis_extended (data : list bar)
  : option (gmap string value) :=
  if (length data <? 50)%nat then Some {[ "error"%string := Other ]}
  else match latest_data data with
       | Some d => Some d
       | None => Some {[ "error"%string := Other ]}
       end.

End Variants.

End TechnicalAnalysis.

(** ** Signal interpretation *)

(** The Russian phrases of the reasoning text, by role. *)
Module Phrase.

Definition technical_bullish : string := "Технические индикаторы показывают бычий сигнал".
Definition technical_bearish : string := "Технические индикаторы показывают медвежий сигнал".
Definition fundamental_bullish : string := "Фундаментальные факторы поддерживают рост".
Definition fundamental_bearish : string := "Фундаментальные факторы указывают на ослабление".
Definition sentiment_bullish : string := "Позитивные новости и настроения рынка".
Definition sentiment_bearish : string := "Негативные новости влияют на настроения".
Definition momentum_bullish : string := "Сильный восходящий моментум".
Definition momentum_bearish : string := "Нисходящий моментум".
Definition price_action_bullish : string := "Ценовое действие поддерживает рост".
Definition price_action_bearish : string := "Ценовое действие указывает на снижение".
Definition volume_bullish : string := "Объемы подтверждают движение".
Definition volume_bearish : string := "Слабые объемы не поддерживают движение".
Definition news_bullish : string := "Позитивные новости и настроения".
Definition mixed : string := "Смешанные сигналы от различных индикаторов".

(** One entry of [reasoning_parts]: the bullish phrase above 60, the
    bearish one below 40, nothing in between. *)
Definition part (score : Q) (bullish bearish : string) : list string :=
  if Py.gt score 60 then [bullish]
  else if Py.lt score 40 then [bearish]
  else [].

(** [". ".join(reasoning_parts) if reasoning_parts else mixed] *)
Definition reasoning (parts : list string) : string :=
  match parts with
  | [] => mixed
  | _ => Py.join ". " parts
  end.

End Phrase.

(** Signal dictionaries of [SignalGenerator]. *)
Record signal : Type := Signal {
  sg_symbol : string;
  sg_action : string;
  sg_confidence : Q;
  sg_strength : string;
  sg_final_score : Q;
  sg_reasoning : string;
  sg_risk_level : string
}.

Module SignalGenerator.

Definition min_confidence_threshold : Q := 65.
Definition strong_signal_threshold : Q := 80.
Definition weak_signal_threshold : Q := 55.

(** [SignalGenerator._interpret_signal]: thresholds 65/35, dispersion
    bands 25/15, strength from the unclamped confidence, final clamp to
    [0, 95].  The symbol is filled in by the caller.  The products are
    exact here; in floating point [50 * 1.1] is 55.00000000000001. *)
Definition _interpret_signal
    (final_score technical_score price_action_score volume_score
     sentiment_score : Q) : signal :=
  let '(action, confidence) :=
    if Py.ge final_score 65 then ("BUY"%string, final_score)
    else if Py.le final_score 35 then ("SELL"%string, 100 - final_score)
    else ("HOLD"%string, 50) in
  let scores :=
    [technical_score; price_action_score; volume_score; sentiment_score] in
  let confidence :=
    if Py.np_std_gt scores 25 then confidence * 0.8
    else if Py.np_std_lt scores 15 then confidence * 1.1
    else confidence in
  let strength : string :=
    if Py.ge confidence strong_signal_threshold then "Strong"
    else if Py.ge confidence weak_signal_threshold then "Moderate"
    else "Weak" in
  let reasoning_parts :=
    Phrase.part technical_score Phrase.technical_bullish Phrase.technical_bearish ++
    Phrase.part price_action_score Phrase.price_action_bullish Phrase.price_action_bearish ++
    Phrase.part volume_score Phrase.volume_bullish Phrase.volume_bearish ++
    Phrase.part sentiment_score Phrase.news_bullish Phrase.sentiment_bearish in
  let confidence := Py.max 0 (Py.min 95 confidence) in
  {| sg_symbol := EmptyString;
     sg_action := action;
     sg_confidence := confidence;
     sg_strength := strength;
     sg_final_score := final_score;
     sg_reasoning := Phrase.reasoning reasoning_parts;
     sg_risk_level :=
       if Py.ge confidence 80 then "Low"
       else if Py.ge confidence 60 then "Medium" else "High" |}.

(** What [TechnicalIndicators.get_all_indicators] returns. *)
Record indicators_data : Type := IndicatorsData {
  analysis_complete : bool;
  latest_values : option (gmap string value)
}.

(** The body of [_analyze_technical_indicators] once the analysis is a
    non-empty dictionary; [None] is a raised exception. *)
Definition technical_indicators_of (tech_analysis : gmap string value)
    (indicators : option indicators_data) : option Q :=
  let score := 50 in
  rsi ← get_num tech_analysis "rsi" 50;
  let score :=
    if Py.lt rsi 30 then score + 15
    else if Py.gt rsi 70 then score - 15
    else if Py.le 40 rsi && Py.le rsi 60 then score + 5
    else score in
  macd ← get_num tech_analysis "macd" 0;
  macd_signal ← get_num tech_analysis "macd_signal" 0;
  let score :=
    if Py.gt macd macd_signal && Py.gt macd 0 then score + 12
    else if Py.lt macd macd_signal && Py.lt macd 0 then score - 12
    else score in
  price ← get_num tech_analysis "price" 0;
  sma_10 ← get_num tech_analysis "sma_10" 0;
  sma_20 ← get_num tech_analysis "sma_20" 0;
  let score :=
    if Py.gt price sma_10 && Py.gt sma_10 sma_20 then score + 15
    else if Py.lt price sma_10 && Py.lt sma_10 sma_20 then score - 15
    else if Py.gt price sma_20 then score + 8
    else if Py.lt price sma_20 then score - 8
    else score in
  bb_lower ← get_num tech_analysis "bb_lower" 0;
  score ←
    (if Py.lt price bb_lower then Some (score + 10)
     else
       bb_upper ← get_num tech_analysis "bb_upper" 0;
       Some (if Py.gt price bb_upper then score - 10 else score));
  stoch_k ← get_num tech_analysis "stoch_k" 50;
  stoch_d ← get_num tech_analysis "stoch_d" 50;
  let score :=
    if Py.lt stoch_k 20 && Py.lt stoch_d 20 then score + 8
    else if Py.gt stoch_k 80 && Py.gt stoch_d 80 then score - 8
    else if Py.gt stoch_k stoch_d && Py.lt stoch_k 80 then score + 5
    else if Py.lt stoch_k stoch_d && Py.gt stoch_k 20 then score - 5
    else score in
  indicators_data ← indicators;
  score ←
    (if analysis_complete indicators_data then
       latest ← latest_values indicators_data;
       williams_r ← get_num latest "williams_r" 0;
       let score :=
         if Py.lt williams_r (-80) then score + 6
         else if Py.gt williams_r (-20) then score - 6
         else score in
       cci ← get_num latest "cci" 0;
       let score :=
         if Py.lt cci (-100) then score + 6
         else if Py.gt cci 100 then score - 6
         else score in
       mfi ← get_num latest "mfi" 50;
       let score :=
         if Py.lt mfi 20 then score + 6
         else if Py.gt mfi 80 then score - 6
         else score in
       current_price ← get_num latest "current_price" 0;
       sar ← get_num latest "parabolic_sar" 0;
       Some (if Py.gt current_price sar then score + 5
             else if Py.lt current_price sar then score - 5
             else score)
     else Some score);
  Some (Py.max 0 (Py.min 100 score)).

(** [_analyze_technical_indicators]: 50 when the analysis is falsy or an
    exception is caught.  [get_all_indicators] yields [None] when it
    raises. *)
Definition _analyze_technical_indicators
    (get_comprehensive_analysis : list bar -> option (gmap string value))
    (get_all_indicators : list bar -> option indicators_data)
    (data : list bar) : Q :=
  match get_comprehensive_analysis data with
  | None => 50
  | Some tech_analysis =>
      if negb (truthy (Some tech_analysis)) then 50
      else match technical_indicators_of tech_analysis (get_all_indicators data) with
           | Some score => score
           | None => 50
           end
  end.

Section Batch.

(** [generate_trading_signal] as [batch_generate_signals] sees it:
    [None] when it returns [None] or raises. *)
Variable generate_trading_signal : string -> list bar -> option signal.


End Batch.

End SignalGenerator.

(** ** [IntelligentTrader] of intelligent_trader_1754765285973 *)

(** A news item as the sentiment scorer reads it. *)
Record news_item : Type := NewsItem {
  title : string;
  description : string
}.

(** The result of [analyze_symbol]. *)
Record analysis : Type := Analysis {
  an_symbol : string;
  an_action : string;
  an_confidence : Q;
  an_reasoning : string;
  an_technical_score : Q;
  an_fundamental_score : Q;
  an_sentiment_score : Q;
  an_momentum_score : Q;
  an_total_score : Q
}.

(** A 24h ticker of the exchange client. *)
Record ticker : Type := Ticker {
  tk_symbol : string;
  tk_lastPrice : option Q;
  tk_priceChangePercent : option Q;
  tk_volume : option Q
}.


Module IntelligentTraderV2.

Definition min_confidence_threshold : Q := 70.

(** [max(items, key=...)] and [min(items, key=...)] over name and score
    pairs: the first item no later one strictly beats. *)
Definition max_by_score (first : string * Q) (rest : list (string * Q))
  : string * Q :=
  fold_left (fun best x => if Py.gt (snd x) (snd best) then x else best)
            rest first.

Definition min_by_score (first : string * Q) (rest : list (string * Q))
  : string * Q :=
  fold_left (fun best x => if Py.lt (snd x) (snd best) then x else best)
            rest first.

Section Interpret.

(** [f"{x:.1f}"]: the decimal rendering of a float, a parameter. *)
Variable fmt1 : Q -> string.

(** [_interpret_analysis_score]: thresholds 70/30; the BUY and SELL
    branches cap the confidence at 95, the HOLD branch does not. *)
Definition _interpret_analysis_score
    (total_score technical fundamental sentiment momentum : Q)
  : string * Q * string :=
  let '(action, confidence) :=
    if Py.ge total_score 70 then ("BUY"%string, Py.min total_score 95)
    else if Py.le total_score 30
         then ("SELL"%string, Py.min (100 - total_score) 95)
    else ("HOLD"%string, 100 - Py.abs (total_score - 50) * 2) in
  let factors :=
    [("фундаментальный"%string, fundamental);
     ("настроения"%string, sentiment);
     ("моментум"%string, momentum)] in
  let strongest_factor := max_by_score ("технический"%string, technical) factors in
  let weakest_factor := min_by_score ("технический"%string, technical) factors in
  let reasoning :=
    ("Рекомендация " ++ action ++ " основана на общей оценке "
       ++ fmt1 total_score ++ "/100. ")%string in
  let reasoning :=
    (reasoning ++ "Сильнейший фактор: " ++ fst strongest_factor ++ " анализ ("
       ++ fmt1 (snd strongest_factor) ++ "). ")%string in
  let reasoning :=
    (reasoning ++
       if String.eqb action "BUY" then "Положительные сигналы преобладают. "
       else if String.eqb action "SELL" then "Отрицательные сигналы преобладают. "
       else "Смешанные сигналы, рекомендуется ожидание. ")%string in
  let reasoning :=
    (reasoning ++ "Слабейший фактор: " ++ fst weakest_factor ++ " анализ ("
       ++ fmt1 (snd weakest_factor) ++ ").")%string in
  (action, confidence, reasoning).

End Interpret.

(** *** The four category scorers *)

(** The body of [_calculate_technical_score] once the analysis is a
    non-empty dictionary; [None] is a raised exception. *)
Definition technical_score_of (a : gmap string value) : option Q :=
  let score := 50 in
  rsi ← get_num a "rsi" 50;
  let score :=
    if Py.lt rsi 30 then score + 15
    else if Py.gt rsi 70 then score - 15
    else score in
  macd ← get_num a "macd" 0;
  macd_signal ← get_num a "macd_signal" 0;
  let score := if Py.gt macd macd_signal then score + 10 else score - 10 in
  price ← get_num a "price" 0;
  sma_20 ← get_num a "sma_20" 0;
  let score := if Py.gt price sma_20 then score + 10 else score - 10 in
  bb_upper ← get_num a "bb_upper" 0;
  score ←
    (if Py.gt price bb_upper then Some (score - 5)
     else
       bb_lower ← get_num a "bb_lower" 0;
       Some (if Py.lt price bb_lower then score + 5 else score));
  Some (Py.max 0 (Py.min 100 score)).

(** [_calculate_technical_score]: 50 when the analysis is falsy or an
    exception is caught. *)
Definition _calculate_technical_score
    (get_comprehensive_analysis : list bar -> option (gmap string value))
    (df : list bar) : Q :=
  match get_comprehensive_analysis df with
  | None => 50
  | Some a =>
      if negb (truthy (Some a)) then 50
      else match technical_score_of a with
           | Some score => score
           | None => 50
           end
  end.

(** [_calculate_fundamental_score] *)
Definition _calculate_fundamental_score (symbol : string) (df : list bar) : Q :=
  let score := 50 in
  let recent_volume := Py.mean (Py.tail 24 (map volume df)) in
  let historical_volume := Py.mean (Py.tail 168 (map volume df)) in
  let score :=
    if Py.np_gtf recent_volume (Py.np_scale historical_volume 1.5) then score + 20
    else if Py.np_ltf recent_volume (Py.np_scale historical_volume 0.5) then score - 10
    else score in
  let price_changes := Py.tail 24 (Py.pct_change (map close df)) in
  let score :=
    if Py.pd_std_between price_changes 0.02 0.05 then score + 10
    else if Py.pd_std_gt price_changes 0.1 then score - 15
    else score in
  let score :=
    if Py.endswith "USDT" symbol then
      let base_asset := Py.remove "USDT" symbol in
      if bool_decide (base_asset ∈ ["BTC"; "ETH"; "BNB"]%string) then score + 10
      else if bool_decide (base_asset ∈ ["ADA"; "XRP"; "SOL"; "DOT"]%string)
           then score + 5
      else score - 5
    else score in
  Py.max 0 (Py.min 100 score).

Definition positive_keywords : list string :=
  ["gain"; "rise"; "up"; "bull"; "positive"; "growth"; "adoption"]%string.

Definition negative_keywords : list string :=
  ["fall"; "down"; "bear"; "negative"; "crash"; "decline"; "drop"]%string.

(** [any(keyword in text for keyword in keywords)] *)
Definition any_keyword (keywords : list string) (text : string) : bool :=
  existsb (fun keyword => Py.contains keyword text) keywords.

(** The counting loop over the symbol's news: the pair
    [(positive_news, negative_news)]. *)
Definition count_news (symbol_news : list news_item) : Z * Z :=
  fold_left
    (fun '(positive_news, negative_news) news_item =>
       let text :=
         (Py.lower (title news_item) ++ " " ++ Py.lower (description news_item))%string in
       if any_keyword positive_keywords text
       then ((positive_news + 1)%Z, negative_news)
       else if any_keyword negative_keywords text
            then (positive_news, (negative_news + 1)%Z)
       else (positive_news, negative_news))
    symbol_news (0%Z, 0%Z).

(** [_calculate_sentiment_score]; the news parser is passed as its two
    methods. *)
Definition _calculate_sentiment_score
    (get_symbol_news : string -> Z -> list news_item)
    (get_market_sentiment : gmap string value)
    (symbol : string) : Q :=
  let score := 50 in
  let symbol_news := get_symbol_news symbol 24%Z in
  let result :=
    match symbol_news with
    | _ :: _ =>
        let '(positive_news, negative_news) := count_news symbol_news in
        if (negative_news <? positive_news)%Z
        then Some (score + Py.min (inject_Z (positive_news * 10)) 30)
        else if (positive_news <? negative_news)%Z
             then Some (score - Py.min (inject_Z (negative_news * 10)) 30)
        else Some score
    | [] =>
        sentiment_score ← get_num get_market_sentiment "sentiment_score" 0;
        Some (score + sentiment_score * 20)
    end in
  match result with
  | Some score => Py.max 0 (Py.min 100 score)
  | None => 50
  end.

(** The body of [_calculate_momentum_score]; [None] is the [IndexError]
    of a frame shorter than the look-back. *)
Definition momentum_score_of (df : list bar) : option Q :=
  let score := 50 in
  let closes := map close df in
  last ← Py.iloc_neg 1 closes;
  close_24 ← Py.iloc_neg 24 closes;
  let recent_change := Py.np_pct (Py.np_div last close_24) in
  close_168 ← Py.iloc_neg 168 closes;
  let weekly_change := Py.np_pct (Py.np_div last close_168) in
  let score :=
    if Py.np_gt recent_change 5 then score + 20
    else if Py.np_gt recent_change 2 then score + 10
    else if Py.np_lt recent_change (-5) then score - 20
    else if Py.np_lt recent_change (-2) then score - 10
    else score in
  let score :=
    if (Py.np_gt recent_change 0 && Py.np_gt weekly_change 0)
       || (Py.np_lt recent_change 0 && Py.np_lt weekly_change 0)
    then score + 10
    else score - 5 in
  let recent_volume := Py.mean (Py.tail 24 (map volume df)) in
  let historical_volume := Py.mean (map volume df) in
  let volume_ratio :=
    match recent_volume, historical_volume with
    | Py.Fin r, Py.Fin h => Py.np_div r h
    | _, _ => Py.NaN
    end in
  let score :=
    if Py.np_gt volume_ratio 1.5 then score + 15
    else if Py.np_lt volume_ratio 0.5 then score - 10
    else score in
  Some (Py.max 0 (Py.min 100 score)).

Definition _calculate_momentum_score (df : list bar) : Q :=
  match momentum_score_of df with
  | Some score => score
  | None => 50
  end.

(** *** Adaptive weights *)

(** [self.indicator_weights]: a dictionary over the four categories. *)
Definition weights : Type := category -> Q.

Definition default_weights : weights := fun c =>
  match c with
  | technical => 0.35
  | fundamental => 0.25
  | sentiment => 0.20
  | momentum => 0.20
  end.

Definition success_weight_adjustment : Q := 0.1.
Definition failure_weight_adjustment : Q := - 0.05.

(** [d[k] = v] *)
Definition set_weight (k : category) (v : Q) (w : weights) : weights :=
  fun c => if decide (c = k) then v else w c.

(** [sum(self.indicator_weights.values())] *)
Definition total (w : weights) : Q := Py.sum (map w categories).

(** [analysis_data.get('<category>_score', 50)] for each category. *)
Definition scores (analysis_data : category -> option Q) : category -> Q :=
  fun c => match analysis_data c with Some s => s | None => 50 end.

(** [max(scores.items(), key=lambda x: x[1])[0]]: the first category, in
    dictionary order, that no later one strictly exceeds. *)
Definition strongest_factor (s : category -> Q) : category :=
  fold_left (fun best c => if Py.gt (s c) (s best) then c else best)
            [fundamental; sentiment; momentum] technical.

(** [update_ai_weights].  A zero [total_weight] makes the first division
    raise [ZeroDivisionError]; the handler only logs, so the weights stay
    as they were just before the normalisation loop. *)
Definition update_ai_weights (analysis_data : category -> option Q)
    (performance : Q) (w : weights) : weights :=
  let adjustment :=
    if Py.gt performance 0 then success_weight_adjustment
    else failure_weight_adjustment in
  let strongest := strongest_factor (scores analysis_data) in
  let old_weight := w strongest in
  let new_weight := Py.max 0.1 (Py.min 0.6 (old_weight + adjustment)) in
  let w1 := set_weight strongest new_weight w in
  let total_weight := total w1 in
  if Qeq_bool total_weight 0 then w1
  else fun c => w1 c / total_weight.


(** *** Market scan *)

Section Scan.

(** The two listings of the exchange client; [None] when the call
    raises. *)
Variable get_top_gainers_losers : Z -> option (list ticker).
Variable get_volume_leaders : Z -> option (list ticker).

(** [analyze_symbol] as the scan sees it: [None] when it returns [None]
    or raises. *)
Variable analyze_symbol : string -> option analysis.




End Scan.

End IntelligentTraderV2.

(** ** Sentiment aggregation: the three [NewsParser] variants

    Fetching, caching and the keyword sentiment of one article are
    outside the model: the aggregators take the per-article results of
    [analyze_sentiment], in article order. *)

(** The dictionary a sentiment aggregator returns. *)
Record sentiment_result : Type := SentimentResult {
  overall_sentiment : string;
  sentiment_score : Q;
  confidence : Q;
  articles_analyzed : nat
}.

(** An article with the result of [analyze_sentiment] on its text. *)
Record scored_article : Type := ScoredArticle {
  source : string;
  mention_count : Z;
  text_length : nat;
  article_score : Q;
  article_confidence : Q
}.

Definition neutral_sentiment : sentiment_result :=
  {| overall_sentiment := "Neutral"; sentiment_score := 0;
     confidence := 0; articles_analyzed := 0 |}.

(** [len(l)] as a number. *)
Definition len {A : Type} (l : list A) : Q := inject_Z (Z.of_nat (length l)).

(** [sum(score * conf for ...) / total_weight] over score and weight
    pairs. *)
Definition weighted_sum (kept : list (Q * Q)) : Q :=
  Py.sum (map (fun '(score, conf) => score * conf) kept).

(** news_parser_1754752845843 *)
Module NewsParserV1.

(** The three-way label both aggregators of this variant use. *)
Definition label (avg_sentiment : Q) : string :=
  if Py.gt avg_sentiment 0.1 then "Bullish"
  else if Py.lt avg_sentiment (-0.1) then "Bearish"
  else "Neutral".

(** The articles kept: those with [confidence > 0.1]. *)
Definition kept (articles : list scored_article) : list (Q * Q) :=
  flat_map
    (fun a => if Py.gt (article_confidence a) 0.1
              then [(article_score a, article_confidence a)] else [])
    articles.

Definition average (kept : list (Q * Q)) : Q :=
  let total_weight := Py.sum (map snd kept) in
  if Py.gt total_weight 0 then weighted_sum kept / total_weight else 0.

Definition get_market_sentiment (articles : list scored_article) : sentiment_result :=
  match kept articles with
  | [] => neutral_sentiment
  | k =>
      let avg_sentiment := average k in
      {| overall_sentiment := label avg_sentiment;
         sentiment_score := avg_sentiment;
         confidence := Py.sum (map snd k) / len k;
         articles_analyzed := length k |}
  end.

(** [analyze_symbol_sentiment] on the articles that mention the symbol;
    [None] when there is none or none is kept. *)
Definition analyze_symbol_sentiment (symbol_articles : list scored_article)
  : option sentiment_result :=
  match kept symbol_articles with
  | [] => None
  | k =>
      let avg_sentiment := average k in
      Some {| overall_sentiment := label avg_sentiment;
              sentiment_score := avg_sentiment;
              confidence := Py.sum (map snd k) / len k;
              articles_analyzed := length k |}
  end.

End NewsParserV1.

(** news_parser_1754755741844: the weighted multi-source aggregator. *)
Module NewsParserV2.

(** The five-way label of [get_market_sentiment]. *)
Definition market_label (avg_sentiment : Q) : string :=
  if Py.gt avg_sentiment 0.2 then "Bullish"
  else if Py.gt avg_sentiment 0.05 then "Slightly Bullish"
  else if Py.lt avg_sentiment (-0.2) then "Bearish"
  else if Py.lt avg_sentiment (-0.05) then "Slightly Bearish"
  else "Neutral".

(** The five-way label of [analyze_symbol_sentiment]: 0.15 where the
    market-wide one has 0.2. *)
Definition symbol_label (avg_sentiment : Q) : string :=
  if Py.gt avg_sentiment 0.15 then "Bullish"
  else if Py.gt avg_sentiment 0.05 then "Slightly Bullish"
  else if Py.lt avg_sentiment (-0.15) then "Bearish"
  else if Py.lt avg_sentiment (-0.05) then "Slightly Bearish"
  else "Neutral".

(** [source_weights[source]]: the number of articles of that source. *)
Definition source_count (articles : list scored_article) (s : string) : Q :=
  len (List.filter (fun a => String.eqb (source a) s) articles).

(** Articles of at least 20 characters with [confidence > 0.15], their
    confidence scaled by the source weight. *)
Definition market_kept (articles : list scored_article) : list (Q * Q) :=
  flat_map
    (fun a =>
       if (text_length a <? 20)%nat then []
       else if Py.gt (article_confidence a) 0.15 then
         let source_weight :=
           Py.min 2.0 (source_count articles (source a) / 5.0 + 0.5) in
         [(article_score a, article_confidence a * source_weight)]
       else [])
    articles.

(** Articles with [confidence > 0.1], their confidence scaled by the
    mention frequency. *)
Definition symbol_kept (symbol_articles : list scored_article) : list (Q * Q) :=
  flat_map
    (fun a =>
       if Py.gt (article_confidence a) 0.1 then
         let mention_weight :=
           Py.min 2.0 (inject_Z (mention_count a) / 3.0 + 0.5) in
         [(article_score a, article_confidence a * mention_weight)]
       else [])
    symbol_articles.

Definition average (kept : list (Q * Q)) : Q :=
  let total_weight := Py.sum (map snd kept) in
  if Py.gt total_weight 0 then weighted_sum kept / total_weight
  else Py.sum (map fst kept) / len kept.

Definition get_market_sentiment (articles : list scored_article) : sentiment_result :=
  match market_kept articles with
  | [] => neutral_sentiment
  | k =>
      let avg_sentiment := average k in
      {| overall_sentiment := market_label avg_sentiment;
         sentiment_score := avg_sentiment;
         confidence := Py.sum (map snd k) / len k;
         articles_analyzed := length k |}
  end.

Definition analyze_symbol_sentiment (symbol_articles : list scored_article)
  : option sentiment_result :=
  match symbol_kept symbol_articles with
  | [] => None
  | k =>
      let avg_sentiment := average k in
      Some {| overall_sentiment := symbol_label avg_sentiment;
              sentiment_score := avg_sentiment;
              confidence := Py.sum (map snd k) / len k;
              articles_analyzed := length k |}
  end.

End NewsParserV2.

(** The labelling the specification words: above 0.2 Bullish, above 0.05
    Slightly Bullish, below -0.2 Bearish, below -0.05 Slightly Bearish,
    Neutral otherwise, the first matching case in that order. *)
Definition spec_label (s : Q) : string :=
  if Qlt_le_dec 0.2 s then "Bullish"
  else if Qlt_le_dec 0.05 s then "Slightly Bullish"
  else if Qlt_le_dec s (-0.2) then "Bearish"
  else if Qlt_le_dec s (-0.05) then "Slightly Bearish"
  else "Neutral".

(** ** Trade and position bookkeeping
    (trading_history_1754752791042)

    [datetime] values are seconds since the epoch; every method that
    reads the clock takes the reading as [now]. *)

(** The outcome of a call that may raise: the returned value, or the
    exception.  The state a call leaves behind is returned beside it. *)
Inductive outcome (A : Type) : Type :=
| Ret (a : A)
| Raise (message : string).

Arguments Ret {A} a.
Arguments Raise {A} message.

Definition zero_division : string := "float division by zero".

Module TradeRecord.

Record t : Type := Make {
  trade_id : string;
  symbol : string;
  action : string;
  entry_time : Q;
  entry_price : Q;
  quantity : Q;
  exit_time : option Q;
  exit_price : option Q;
  profit_loss : option Q;
  profit_pct : option Q;
  status : string;
  confidence : Q;
  reasoning : string;
  exchange : string;
  fees : Q;
  demo_mode : bool
}.

(** The four assignments [close_trade] makes before it computes the
    profit. *)
Definition mark_closed (now exit_price' fees' : Q) (tr : t) : t :=
  {| trade_id := trade_id tr; symbol := symbol tr; action := action tr;
     entry_time := entry_time tr; entry_price := entry_price tr;
     quantity := quantity tr;
     exit_time := Some now; exit_price := Some exit_price';
     profit_loss := profit_loss tr; profit_pct := profit_pct tr;
     status := "CLOSED";
     confidence := confidence tr; reasoning := reasoning tr;
     exchange := exchange tr; fees := fees'; demo_mode := demo_mode tr |}.

Definition set_profit_loss (v : Q) (tr : t) : t :=
  {| trade_id := trade_id tr; symbol := symbol tr; action := action tr;
     entry_time := entry_time tr; entry_price := entry_price tr;
     quantity := quantity tr;
     exit_time := exit_time tr; exit_price := exit_price tr;
     profit_loss := Some v; profit_pct := profit_pct tr;
     status := status tr;
     confidence := confidence tr; reasoning := reasoning tr;
     exchange := exchange tr; fees := fees tr; demo_mode := demo_mode tr |}.

Definition set_profit_pct (v : Q) (tr : t) : t :=
  {| trade_id := trade_id tr; symbol := symbol tr; action := action tr;
     entry_time := entry_time tr; entry_price := entry_price tr;
     quantity := quantity tr;
     exit_time := exit_time tr; exit_price := exit_price tr;
     profit_loss := profit_loss tr; profit_pct := Some v;
     status := status tr;
     confidence := confidence tr; reasoning := reasoning tr;
     exchange := exchange tr; fees := fees tr; demo_mode := demo_mode tr |}.

End TradeRecord.

Module Position.

Record t : Type := Make {
  symbol : string;
  side : string;
  quantity : Q;
  entry_price : Q;
  current_price : Q;
  unrealized_pnl : Q;
  unrealized_pnl_pct : Q;
  entry_time : Q;
  exchange : string
}.

Definition set_current_price (v : Q) (p : t) : t :=
  {| symbol := symbol p; side := side p; quantity := quantity p;
     entry_price := entry_price p; current_price := v;
     unrealized_pnl := unrealized_pnl p;
     unrealized_pnl_pct := unrealized_pnl_pct p;
     entry_time := entry_time p; exchange := exchange p |}.

Definition set_unrealized_pnl (v : Q) (p : t) : t :=
  {| symbol := symbol p; side := side p; quantity := quantity p;
     entry_price := entry_price p; current_price := current_price p;
     unrealized_pnl := v;
     unrealized_pnl_pct := unrealized_pnl_pct p;
     entry_time := entry_time p; exchange := exchange p |}.

Definition set_unrealized_pnl_pct (v : Q) (p : t) : t :=
  {| symbol := symbol p; side := side p; quantity := quantity p;
     entry_price := entry_price p; current_price := current_price p;
     unrealized_pnl := unrealized_pnl p;
     unrealized_pnl_pct := v;
     entry_time := entry_time p; exchange := exchange p |}.

End Position.

Module TradingHistory.

(** The two lists a [TradingHistory] owns. *)
Record t : Type := Make {
  trades : list TradeRecord.t;
  positions : list Position.t
}.

(** [TradingHistory()] *)
Definition init : t := {| trades := []; positions := [] |}.

(** [[p for p in self.positions if p.symbol != symbol]] *)
Definition without (symbol : string) (ps : list Position.t) : list Position.t :=
  List.filter (fun p => negb (String.eqb (Position.symbol p) symbol)) ps.

Definition add_position (now : Q) (symbol side : string)
    (quantity entry_price : Q) (exchange : string) (h : t) : t :=
  let position :=
    {| Position.symbol := symbol;
       Position.side := side;
       Position.quantity := quantity;
       Position.entry_price := entry_price;
       Position.current_price := entry_price;
       Position.unrealized_pnl := 0;
       Position.unrealized_pnl_pct := 0;
       Position.entry_time := now;
       Position.exchange := exchange |} in
  {| trades := trades h;
     positions := without symbol (positions h) ++ [position] |}.

Definition remove_position (symbol : string) (h : t) : t :=
  {| trades := trades h; positions := without symbol (positions h) |}.

(** [add_trade]: returns the trade id.  Nothing is looked up before the
    record is appended. *)
Definition add_trade (now : Q) (symbol action : string)
    (entry_price quantity confidence : Q) (reasoning exchange : string)
    (demo_mode : bool) (h : t) : string * t :=
  let trade_id := (symbol ++ "_" ++ action ++ "_" ++ Py.str (Py.int now))%string in
  let trade :=
    {| TradeRecord.trade_id := trade_id;
       TradeRecord.symbol := symbol;
       TradeRecord.action := action;
       TradeRecord.entry_time := now;
       TradeRecord.entry_price := entry_price;
       TradeRecord.quantity := quantity;
       TradeRecord.exit_time := None;
       TradeRecord.exit_price := None;
       TradeRecord.profit_loss := None;
       TradeRecord.profit_pct := None;
       TradeRecord.status := "OPEN";
       TradeRecord.confidence := confidence;
       TradeRecord.reasoning := reasoning;
       TradeRecord.exchange := exchange;
       TradeRecord.fees := 0;
       TradeRecord.demo_mode := demo_mode |} in
  let h1 := {| trades := trades h ++ [trade]; positions := positions h |} in
  let h2 :=
    if String.eqb action "BUY"
    then add_position now symbol "LONG" quantity entry_price exchange h1
    else h1 in
  (trade_id, h2).

(** The body of the loop of [close_trade] on the matching trade: the
    updated record, and whether the percentage could be computed. *)
Definition close_record (now exit_price fees : Q) (trade : TradeRecord.t)
  : TradeRecord.t * bool :=
  let trade := TradeRecord.mark_closed now exit_price fees trade in
  let profit_loss :=
    if String.eqb (TradeRecord.action trade) "BUY"
    then (exit_price - TradeRecord.entry_price trade) * TradeRecord.quantity trade - fees
    else (TradeRecord.entry_price trade - exit_price) * TradeRecord.quantity trade - fees in
  let trade := TradeRecord.set_profit_loss profit_loss trade in
  let cost := TradeRecord.entry_price trade * TradeRecord.quantity trade in
  if Qeq_bool cost 0 then (trade, false)
  else (TradeRecord.set_profit_pct (profit_loss / cost * 100) trade, true).

(** The loop of [close_trade] over the trades: the trades afterwards,
    and for the first open trade with that id its symbol and whether its
    percentage could be computed. *)
Fixpoint close_first (now : Q) (trade_id : string) (exit_price fees : Q)
    (ts : list TradeRecord.t) : list TradeRecord.t * option (string * bool) :=
  match ts with
  | [] => ([], None)
  | trade :: rest =>
      if String.eqb (TradeRecord.trade_id trade) trade_id
         && String.eqb (TradeRecord.status trade) "OPEN"
      then
        let '(trade', ok) := close_record now exit_price fees trade in
        (trade' :: rest, Some (TradeRecord.symbol trade, ok))
      else
        let '(rest', found) := close_first now trade_id exit_price fees rest in
        (trade :: rest', found)
  end.

(** [close_trade].  When the traded value is zero the division raises
    after the record has been marked closed and before the position is
    removed. *)
Definition close_trade (now : Q) (trade_id : string) (exit_price fees : Q)
    (h : t) : outcome bool * t :=
  match close_first now trade_id exit_price fees (trades h) with
  | (ts, Some (symbol, true)) =>
      (Ret true, remove_position symbol {| trades := ts; positions := positions h |})
  | (ts, Some (_, false)) =>
      (Raise zero_division, {| trades := ts; positions := positions h |})
  | (ts, None) => (Ret false, h)
  end.

(** One iteration of the loop of [update_position_prices] on a position
    whose symbol has a new price: the position afterwards, and whether
    the percentage could be computed. *)
Definition reprice (price : Q) (position : Position.t) : Position.t * bool :=
  let position := Position.set_current_price price position in
  let pnl :=
    if String.eqb (Position.side position) "LONG"
    then (Position.current_price position - Position.entry_price position)
         * Position.quantity position
    else (Position.entry_price position - Position.current_price position)
         * Position.quantity position in
  let position := Position.set_unrealized_pnl pnl position in
  let cost := Position.entry_price position * Position.quantity position in
  if Qeq_bool cost 0 then (position, false)
  else (Position.set_unrealized_pnl_pct (pnl / cost * 100) position, true).

(** The loop of [update_position_prices]: the positions afterwards and
    whether it ran to the end. *)
Fixpoint reprice_all (price_updates : gmap string Q) (ps : list Position.t)
  : list Position.t * bool :=
  match ps with
  | [] => ([], true)
  | position :: rest =>
      match price_updates !! Position.symbol position with
      | None =>
          let '(rest', ok) := reprice_all price_updates rest in
          (position :: rest', ok)
      | Some price =>
          let '(position', ok) := reprice price position in
          if ok then
            let '(rest', ok') := reprice_all price_updates rest in
            (position' :: rest', ok')
          else (position' :: rest, false)
      end
  end.

(** [update_position_prices]: the positions are updated in place, so
    what was written before a [ZeroDivisionError] stays written. *)
Definition update_position_prices (price_updates : gmap string Q) (h : t)
  : outcome unit * t :=
  let '(ps, ok) := reprice_all price_updates (positions h) in
  (if ok then Ret tt else Raise zero_division,
   {| trades := trades h; positions := ps |}).

Definition get_open_trades (h : t) : list TradeRecord.t :=
  List.filter (fun trade => String.eqb (TradeRecord.status trade) "OPEN") (trades h).

Definition get_current_positions (h : t) : list Position.t := positions h.

(** [clear_demo_trades]: returns the number of demo trades dropped. *)
Definition clear_demo_trades (h : t) : nat * t :=
  (length (List.filter TradeRecord.demo_mode (trades h)),
   {| trades := List.filter (fun trade => negb (TradeRecord.demo_mode trade)) (trades h);
      positions := [] |}).

(** One call of a public mutator. *)
Inductive step : t -> t -> Prop :=
| step_add_trade now symbol action entry_price quantity confidence
    reasoning exchange demo_mode h :
    step h (snd (add_trade now symbol action entry_price quantity
                   confidence reasoning exchange demo_mode h))
| step_close_trade now trade_id exit_price fees h :
    step h (snd (close_trade now trade_id exit_price fees h))
| step_add_position now symbol side quantity entry_price exchange h :
    step h (add_position now symbol side quantity entry_price exchange h)
| step_remove_position symbol h :
    step h (remove_position symbol h)
| step_update_position_prices price_updates h :
    step h (snd (update_position_prices price_updates h))
| step_clear_demo_trades h :
    step h (snd (clear_demo_trades h)).

(** The states a [TradingHistory] can be in. *)
Inductive reachable : t -> Prop :=
| reachable_init : reachable init
| reachable_step h h' : reachable h -> step h h' -> reachable h'.

(** The open trades of a symbol, and the positions of a symbol. *)
Definition open_trades_of (symbol : string) (h : t) : list TradeRecord.t :=
  List.filter (fun trade => String.eqb (TradeRecord.symbol trade) symbol)
              (get_open_trades h).

Definition of_symbol (symbol : string) (ps : list Position.t) : list Position.t :=
  List.filter (fun p => String.eqb (Position.symbol p) symbol) ps.

Definition positions_of (symbol : string) (h : t) : list Position.t :=
  of_symbol symbol (positions h).

End TradingHistory.

(** ** [IntelligentTrader] of intelligent_trader_1754752791042 *)

(** The exchange client as the trader consumes it: each response is an
    error dictionary or the data. *)
Inductive ticker_price : Type :=
| TickerError (error : string)
| TickerPrice (price : option Q).

Inductive account_info : Type :=
| AccountError (error : string)
| Account (balances : option (list (string * Q))).

Inductive order_result : Type :=
| OrderError (error : string)
| OrderAck (orderId : option Z).

Record client : Type := Client {
  get_ticker_price : string -> ticker_price;
  get_account_info : account_info;
  place_order : string -> string -> string -> Q -> order_result
}.

(** The dictionary [execute_trade] returns. *)
Inductive trade_result : Type :=
| TradeFailure (message : string)
| TradeSuccess (trade_id : string) (order_id : option Z)
    (quantity price leverage : Q).


Module IntelligentTraderV1.

(** The trading parameters of the instance. *)
Record config : Type := Config {
  max_positions : Z;
  position_size_pct : Q;
  max_leverage : Q;
  min_confidence_threshold : Q;
  max_hold_time_hours : Q;
  demo_mode : bool
}.


(** [_interpret_analysis_score]: thresholds 65/35, dispersion scaling,
    final clamp to [0, 95]. *)

Definition _interpret_analysis_score
    (total_score technical fundamental sentiment momentum : Q)
  : string * Q * string :=
  let action : string :=
    if Py.ge total_score 65 then "BUY"
    else if Py.le total_score 35 then "SELL"
    else "HOLD" in
  let confidence :=
    if String.eqb action "BUY" then total_score
    else if String.eqb action "SELL" then 100 - total_score
    else 50 in
  let scores := [technical; fundamental; sentiment; momentum] in
  let confidence :=
    if Py.np_std_gt scores 20 then confidence * 0.8
    else if Py.np_std_lt scores 10 then confidence * 1.1
    else confidence in
  let confidence := Py.max 0 (Py.min 95 confidence) in
  let reasoning_parts :=
    Phrase.part technical Phrase.technical_bullish Phrase.technical_bearish ++
    Phrase.part fundamental Phrase.fundamental_bullish Phrase.fundamental_bearish ++
    Phrase.part sentiment Phrase.sentiment_bullish Phrase.sentiment_bearish ++
    Phrase.part momentum Phrase.momentum_bullish Phrase.momentum_bearish in
  (action, confidence, Phrase.reasoning reasoning_parts).

(** [float(ticker.get('price', 0))] on a ticker dictionary. *)
Definition price_of (ticker : ticker_price) : Q :=
  match ticker with
  | TickerPrice (Some price) => price
  | _ => 0
  end.

(** The loop that reads the USDT balance: the first entry whose asset is
    USDT. *)
Fixpoint usdt_balance_of (balances : list (string * Q)) : Q :=
  match balances with
  | [] => 0
  | (asset, free) :: rest =>
      if String.eqb asset "USDT" then free else usdt_balance_of rest
  end.

(** [execute_trade]: the result and the trading history afterwards.
    The notification and the log line written after [add_trade] do not
    touch the history and are left out. *)
Definition execute_trade (cfg : config) (mexc_client : client) (now : Q)
    (symbol action : string) (confidence : Q) (reasoning : string)
    (h : TradingHistory.t) : trade_result * TradingHistory.t :=
  let open_positions :=
    Z.of_nat (length (TradingHistory.get_current_positions h)) in
  if (max_positions cfg <=? open_positions)%Z
  then (TradeFailure "Достигнуто максимальное количество позиций", h)
  else
  match get_ticker_price mexc_client symbol with
  | TickerError error =>
      (TradeFailure ("Ошибка получения цены: " ++ error)%string, h)
  | TickerPrice _ as ticker =>
  let current_price := price_of ticker in
  if Py.le current_price 0 then (TradeFailure "Некорректная цена", h)
  else
  match get_account_info mexc_client with
  | AccountError _ => (TradeFailure "Ошибка получения баланса", h)
  | Account balances =>
  let usdt_balance :=
    match balances with
    | Some bs => usdt_balance_of bs
    | None => 0
    end in
  if Py.lt usdt_balance 10
  then (TradeFailure "Недостаточный баланс для торговли", h)
  else
  let position_value := usdt_balance * (position_size_pct cfg / 100) in
  let leverage :=
    if Py.ge confidence 85 then Py.min (max_leverage cfg) 3.0
    else if Py.ge confidence 80 then 2.0
    else 1.0 in
  let position_value := position_value * leverage in
  let quantity := position_value / current_price in
  match place_order mexc_client symbol action "MARKET" quantity with
  | OrderError error =>
      (TradeFailure ("Ошибка размещения ордера: " ++ error)%string, h)
  | OrderAck orderId =>
      let '(trade_id, h') :=
        TradingHistory.add_trade now symbol action current_price quantity
          confidence reasoning "MEXC" (demo_mode cfg) h in
      (TradeSuccess trade_id orderId quantity current_price leverage, h')
  end
  end
  end.

Section Lifecycle.

(** [f"{x:.1f}"]: the decimal rendering of a float, a parameter. *)
Variable fmt1 : Q -> string.

(** [analyze_symbol] as the exit check sees it: the action and the
    confidence of a fresh analysis, or [None]. *)
Variable analyze_symbol : string -> option (string * Q).






End Lifecycle.

End IntelligentTraderV1.

(** ** Properties as predicates *)

(** A scorer body that, when it returns, returns a score in [0, 100]. *)
Definition score_bounded (m : option Q) : Prop :=
  forall r, m = Some r -> 0 <= r <= 100.


(** A flat series of [n] one-hour bars at price 100. *)
Definition flat_series (n : nat) : list bar :=
  map (fun i => Bar (Z.of_nat i * 3600) 100 101 99 100 1000) (seq 0 n).

(** What [update_position_prices] may do to one position: the identity
    fields stay, and a position whose symbol has no new price stays as
    it is. *)
Definition frame_ok (price_updates : gmap string Q) (p p' : Position.t) : Prop :=
  Position.symbol p' = Position.symbol p /\
  Position.side p' = Position.side p /\
  Position.quantity p' = Position.quantity p /\
  Position.entry_price p' = Position.entry_price p /\
  Position.entry_time p' = Position.entry_time p /\
  Position.exchange p' = Position.exchange p /\
  (price_updates !! Position.symbol p = None -> p' = p).

(** At most one position per symbol. *)
Definition one_position_per_symbol (h : TradingHistory.t) : Prop :=
  forall symbol, (length (TradingHistory.positions_of symbol h) <= 1)%nat.

(** ** Example data *)

(** A history after one BUY entry in BTCUSDT, and after a second one a
    minute later. *)
Definition btc_once : TradingHistory.t :=
  snd (TradingHistory.add_trade 0 "BTCUSDT" "BUY" 100 1 80 "" "MEXC" true
         TradingHistory.init).

Definition btc_twice : TradingHistory.t :=
  snd (TradingHistory.add_trade 60 "BTCUSDT" "BUY" 101 1 80 "" "MEXC" true
         btc_once).



(** One article with four positive and three negative keyword hits: a
    score of 1/7 at confidence 0.7. *)
Definition mildly_positive : scored_article :=
  {| source := "coindesk"; mention_count := 1; text_length := 200;
     article_score := 1 # 7; article_confidence := 0.7 |}.



(** ** Scenario: a long position from entry to exit *)

(** The history after a single BUY entry at [entry_price], and after the
    price refresh that follows. *)
Definition long_entry (t0 : Q) (symbol : string) (entry_price quantity : Q)
  : TradingHistory.t :=
  snd (TradingHistory.add_trade t0 symbol "BUY" entry_price quantity 80 ""
         "MEXC" true TradingHistory.init).

Definition long_priced (t0 : Q) (symbol : string)
    (entry_price quantity current_price : Q) : TradingHistory.t :=
  snd (TradingHistory.update_position_prices {[ symbol := current_price ]}
         (long_entry t0 symbol entry_price quantity)).




(** ** Reports over the trading history
    (trading_history_1754752791042, the reading methods) *)

(** The exception a comparison with [None] raises, by its class name. *)
Definition type_error : string := "TypeError".

Module TradingHistoryReports.

Definition is_closed (trade : TradeRecord.t) : bool :=
  String.eqb (TradeRecord.status trade) "CLOSED".




(** The dictionary [get_trading_statistics] returns; the two counts are
    absent from the all-zero answer. *)
Record statistics : Type := Statistics {
  total_trades : nat;
  win_rate : Q;
  total_profit_pct : Q;
  avg_profit_pct : Q;
  best_trade_pct : Q;
  worst_trade_pct : Q;
  avg_hold_time_hours : Q;
  winning_trades : option nat;
  losing_trades : option nat
}.

Definition no_statistics : statistics :=
  {| total_trades := 0; win_rate := 0; total_profit_pct := 0;
     avg_profit_pct := 0; best_trade_pct := 0; worst_trade_pct := 0;
     avg_hold_time_hours := 0; winning_trades := None; losing_trades := None |}.

(** [max(l)] and [min(l)] of a non-empty list given as head and tail. *)
Definition max_of (first : Q) (rest : list Q) : Q :=
  fold_left (fun best x => if Py.gt x best then x else best) rest first.

Definition min_of (first : Q) (rest : list Q) : Q :=
  fold_left (fun best x => if Py.lt x best then x else best) rest first.

(** [[t.profit_pct for t in closed_trades]] when every one is set. *)
Fixpoint profit_pcts_of (closed_trades : list TradeRecord.t) : option (list Q) :=
  match closed_trades with
  | [] => Some []
  | trade :: rest =>
      match TradeRecord.profit_pct trade, profit_pcts_of rest with
      | Some p, Some ps => Some (p :: ps)
      | _, _ => None
      end
  end.

(** The hold times, in hours, of the trades that have an exit time. *)
Definition hold_times_of (closed_trades : list TradeRecord.t) : list Q :=
  flat_map
    (fun trade =>
       match TradeRecord.exit_time trade with
       | Some exit_time => [(exit_time - TradeRecord.entry_time trade) / 3600]
       | None => []
       end)
    closed_trades.

(** [get_trading_statistics(days)] at clock reading [now].  The test
    [t.profit_pct > 0] raises [TypeError] on a closed trade whose
    percentage was never computed. *)
Definition get_trading_statistics (now : Q) (days : option Z)
    (h : TradingHistory.t) : outcome statistics :=
  let trades :=
    match days with
    | Some d =>
        if (d =? 0)%Z then TradingHistory.trades h
        else
          let cutoff_date := now - inject_Z d * 86400 in
          List.filter (fun t => Py.ge (TradeRecord.entry_time t) cutoff_date)
                      (TradingHistory.trades h)
    | None => TradingHistory.trades h
    end in
  let closed_trades := List.filter is_closed trades in
  match closed_trades with
  | [] => Ret no_statistics
  | _ :: _ =>
      match profit_pcts_of closed_trades with
      | None => Raise type_error
      | Some [] => Ret no_statistics
      | Some ((p :: ps) as profit_pcts) =>
          let total := length closed_trades in
          let winning := List.filter (fun x => Py.gt x 0) profit_pcts in
          let win_rate := len winning / len closed_trades * 100 in
          let total_profit :=
            Py.sum (List.filter (fun x => negb (Py.eq x 0)) profit_pcts) in
          let hold_times := hold_times_of closed_trades in
          Ret {| total_trades := total;
                 win_rate := win_rate;
                 total_profit_pct := total_profit;
                 avg_profit_pct := total_profit / len closed_trades;
                 best_trade_pct := max_of p ps;
                 worst_trade_pct := min_of p ps;
                 avg_hold_time_hours :=
                   match hold_times with
                   | [] => 0
                   | _ => Py.sum hold_times / len hold_times
                   end;
                 winning_trades := Some (length winning);
                 losing_trades := Some (total - length winning)%nat |}
      end
  end.



End TradingHistoryReports.

(** A trade record is OPEN with no exit data, or CLOSED with its exit
    time, exit price and profit set. *)
Definition trade_ok (trade : TradeRecord.t) : Prop :=
  (TradeRecord.status trade = "OPEN"%string /\
   TradeRecord.exit_time trade = None /\
   TradeRecord.exit_price trade = None /\
   TradeRecord.profit_loss trade = None /\
   TradeRecord.profit_pct trade = None) \/
  (TradeRecord.status trade = "CLOSED"%string /\
   TradeRecord.exit_time trade <> None /\
   TradeRecord.exit_price trade <> None /\
   TradeRecord.profit_loss trade <> None).

(** The profit fields of a position agree with its prices. *)
Definition pnl_ok (p : Position.t) : Prop :=
  Position.unrealized_pnl p ==
    (if String.eqb (Position.side p) "LONG"
     then (Position.current_price p - Position.entry_price p) * Position.quantity p
     else (Position.entry_price p - Position.current_price p) * Position.quantity p) /\
  (~ Position.entry_price p * Position.quantity p == 0 ->
   Position.unrealized_pnl_pct p ==
     Position.unrealized_pnl p
     / (Position.entry_price p * Position.quantity p) * 100).

(** A trade is the one [close_trade] looks for: it has the id and is
    OPEN. *)
Definition matches (trade_id : string) (trade : TradeRecord.t) : Prop :=
  TradeRecord.trade_id trade = trade_id /\ TradeRecord.status trade = "OPEN"%string.

(** A history after one entry whose traded value is zero. *)
Definition zero_quantity_entry : TradingHistory.t :=
  snd (TradingHistory.add_trade 0 "BTCUSDT" "BUY" 100 0 80 "" "MEXC" true
         TradingHistory.init).



(** The history [zero_quantity_entry] after its trade was closed. *)
Definition zero_quantity_closed : TradingHistory.t :=
  snd (TradingHistory.close_trade 60 "BTCUSDT_BUY_0" 110 0 zero_quantity_entry).

(** ** Market overview
    ([MEXCClient.analyze_market_conditions] of
    mexc_client_1754752868089 and the overview methods the two
    [IntelligentTrader] variants share) *)

(** A 24h ticker as [analyze_market_conditions] reads it; an absent
    field reads as 0. *)
Record ticker24 : Type := Ticker24 {
  t24_symbol : string;
  t24_priceChangePercent : option Q;
  t24_quoteVolume : option Q
}.

(** The dictionary [analyze_market_conditions] returns. *)
Record market_stats : Type := MarketStats {
  ms_total_symbols : nat;
  ms_gainers : nat;
  ms_losers : nat;
  ms_gainers_pct : Q;
  ms_avg_change_pct : Q;
  ms_total_volume_usdt : Q;
  ms_market_sentiment : string
}.

Inductive market_data : Type :=
| MarketError (error : string)
| Market (stats : market_stats).

(** The dictionary [analyze_market_overview] returns. *)
Record market_conditions : Type := MarketConditions {
  mc_sentiment : string;
  mc_confidence : Q
}.

Module MarketOverview.

Definition change_of (t : ticker24) : Q :=
  match t24_priceChangePercent t with Some x => x | None => 0 end.

Definition volume_of (t : ticker24) : Q :=
  match t24_quoteVolume t with Some x => x | None => 0 end.

(** [analyze_market_conditions]; [tickers] is [None] when the client
    did not answer with a list. *)
Definition analyze_market_conditions (tickers : option (list ticker24))
  : market_data :=
  match tickers with
  | None => MarketError "Unable to fetch market data"
  | Some tickers =>
      let usdt_pairs :=
        List.filter (fun t => Py.endswith "USDT" (t24_symbol t)) tickers in
      match usdt_pairs with
      | [] => MarketError "No USDT pairs found"
      | _ :: _ =>
          let total_symbols := length usdt_pairs in
          let gainers := List.filter (fun t => Py.gt (change_of t) 0) usdt_pairs in
          let losers := List.filter (fun t => Py.lt (change_of t) 0) usdt_pairs in
          let avg_change := Py.sum (map change_of usdt_pairs) / len usdt_pairs in
          let total_volume := Py.sum (map volume_of usdt_pairs) in
          let sentiment : string :=
            if Py.gt (len gainers) (len losers * 1.5) then "Bullish"
            else if Py.gt (len losers) (len gainers * 1.5) then "Bearish"
            else "Neutral" in
          Market {| ms_total_symbols := total_symbols;
                    ms_gainers := length gainers;
                    ms_losers := length losers;
                    ms_gainers_pct := len gainers / len usdt_pairs * 100;
                    ms_avg_change_pct := avg_change;
                    ms_total_volume_usdt := total_volume;
                    ms_market_sentiment := sentiment |}
      end
  end.

(** [sentiment_scores.get(label, 0)] *)
Definition sentiment_value (label : string) : Q :=
  if String.eqb label "Bullish" then 1
  else if String.eqb label "Neutral" then 0
  else if String.eqb label "Bearish" then -1
  else 0.

(** [_combine_sentiments] *)
Definition _combine_sentiments (market_sentiment news_sentiment : string) : string :=
  let market_score := sentiment_value market_sentiment in
  let news_score := sentiment_value news_sentiment in
  let combined_score := market_score * 0.6 + news_score * 0.4 in
  if Py.gt combined_score 0.3 then "Bullish"
  else if Py.lt combined_score (-0.3) then "Bearish"
  else "Neutral".

(** [_calculate_market_confidence] on the three numbers it reads. *)
Definition _calculate_market_confidence
    (gainers_pct news_sentiment_score total_volume_usdt : Q) : Q :=
  let confidence := 50 in
  let confidence :=
    if Py.gt gainers_pct 60 then confidence + 15
    else if Py.lt gainers_pct 40 then confidence + 15
    else confidence in
  let news_score := Py.abs news_sentiment_score in
  let confidence := confidence + Py.min (news_score * 20) 20 in
  let confidence :=
    if Py.gt total_volume_usdt 1000000000 then confidence + 10 else confidence in
  Py.min confidence 95.

(** [analyze_market_overview], given what the exchange and the news
    parser answer. *)
Definition analyze_market_overview (tickers : option (list ticker24))
    (news_sentiment : sentiment_result) : market_conditions :=
  match analyze_market_conditions tickers with
  | MarketError _ => {| mc_sentiment := "Unknown"; mc_confidence := 0 |}
  | Market stats =>
      {| mc_sentiment :=
           _combine_sentiments (ms_market_sentiment stats)
                               (overall_sentiment news_sentiment);
         mc_confidence :=
           _calculate_market_confidence (ms_gainers_pct stats)
             (sentiment_score news_sentiment) (ms_total_volume_usdt stats) |}
  end.

End MarketOverview.

(** Both labels are one of the three that [_combine_sentiments] knows. *)
Definition directional (label : string) : Prop :=
  label = "Bullish"%string \/ label = "Bearish"%string.

(** ** [IntelligentTrader.analyze_symbol] of
    intelligent_trader_1754765285973 *)

(** What [get_klines] answers: an error dictionary or the rows. *)
Inductive klines : Type :=
| KlinesError (error : string)
| Klines (rows : list bar).

Module AnalyzeSymbol.

Section Analyze.

Variable fmt1 : Q -> string.
Variable get_klines : string -> string -> Z -> klines.
Variable get_comprehensive_analysis : list bar -> option (gmap string value).
Variable get_symbol_news : string -> Z -> list news_item.
Variable get_market_sentiment : gmap string value.
Variable indicator_weights : IntelligentTraderV2.weights.

(** [analyze_symbol]: [None] on an error answer, on no rows and on
    fewer than 50 rows.  The rows are taken as the frame they are
    converted to. *)
Definition analyze_symbol (symbol : string) : option analysis :=
  match get_klines symbol "1h" 100%Z with
  | KlinesError _ => None
  | Klines [] => None
  | Klines df =>
      if (length df <? 50)%nat then None
      else
        let technical_score :=
          IntelligentTraderV2._calculate_technical_score get_comprehensive_analysis df in
        let fundamental_score :=
          IntelligentTraderV2._calculate_fundamental_score symbol df in
        let sentiment_score :=
          IntelligentTraderV2._calculate_sentiment_score
            get_symbol_news get_market_sentiment symbol in
        let momentum_score := IntelligentTraderV2._calculate_momentum_score df in
        let total_score :=
          technical_score * indicator_weights technical +
          fundamental_score * indicator_weights fundamental +
          sentiment_score * indicator_weights sentiment +
          momentum_score * indicator_weights momentum in
        let '(action, confidence, reasoning) :=
          IntelligentTraderV2._interpret_analysis_score fmt1
            total_score technical_score fundamental_score sentiment_score
            momentum_score in
        Some {| an_symbol := symbol;
                an_action := action;
                an_confidence := confidence;
                an_reasoning := reasoning;
                an_technical_score := technical_score;
                an_fundamental_score := fundamental_score;
                an_sentiment_score := sentiment_score;
                an_momentum_score := momentum_score;
                an_total_score := total_score |}
  end.

End Analyze.

End AnalyzeSymbol.

(** Weights as the data model wants them: none negative, summing to 1. *)
Definition weights_ok (w : IntelligentTraderV2.weights) : Prop :=
  (forall c, 0 <= w c) /\ IntelligentTraderV2.total w == 1.

(** An exchange answer of [n] flat bars. *)
Definition flat_klines (n : nat) : string -> string -> Z -> klines :=
  fun _ _ _ => Klines (flat_series n).

(** ** [NotificationManager] of notifications_1754752791042 *)

Inductive NotificationType : Type :=
| TRADE_OPENED
| TRADE_CLOSED
| SIGNAL_GENERATED
| RISK_WARNING
| SYSTEM_STATUS
| PERFORMANCE_UPDATE.

(** A naive [datetime]: its fields, compared field by field. *)
Record datetime : Type := Datetime {
  dt_year : Z;
  dt_month : Z;
  dt_day : Z;
  dt_hour : Z;
  dt_minute : Z;
  dt_second : Z;
  dt_microsecond : Z
}.

(** The [Notification] dataclass; [payload] is the type of its [data]
    dictionary, which the manager stores and never reads. *)
Record notification (payload : Type) : Type := Notification {
  n_id : string;
  n_type : NotificationType;
  n_title : string;
  n_message : string;
  n_timestamp : datetime;
  n_read : bool;
  n_data : option payload;
  n_priority : string
}.

Arguments Notification {payload}.
Arguments n_id {payload}.
Arguments n_type {payload}.
Arguments n_title {payload}.
Arguments n_message {payload}.
Arguments n_timestamp {payload}.
Arguments n_read {payload}.
Arguments n_data {payload}.
Arguments n_priority {payload}.

Definition value_error : string := "ValueError".

Module Datetime.

Definition is_leap (y : Z) : bool :=
  ((y mod 4 =? 0) && negb (y mod 100 =? 0) || (y mod 400 =? 0))%Z.

Definition days_in_month (y m : Z) : Z :=
  if (m =? 2)%Z then (if is_leap y then 29 else 28)%Z
  else if ((m =? 4) || (m =? 6) || (m =? 9) || (m =? 11))%Z then 30%Z
  else 31%Z.

Definition fields (d : datetime) : list Z :=
  [dt_year d; dt_month d; dt_day d; dt_hour d; dt_minute d; dt_second d;
   dt_microsecond d].

Fixpoint lex_compare (a b : list Z) : comparison :=
  match a, b with
  | [], [] => Eq
  | [], _ :: _ => Lt
  | _ :: _, [] => Gt
  | x :: a', y :: b' =>
      match (x ?= y)%Z with
      | Eq => lex_compare a' b'
      | c => c
      end
  end.

(** [a >= b] *)
Definition ge (a b : datetime) : bool :=
  match lex_compare (fields a) (fields b) with
  | Lt => false
  | _ => true
  end.

(** [d.replace(hour=0, minute=0, second=0, microsecond=0)] *)
Definition midnight (d : datetime) : datetime :=
  Datetime (dt_year d) (dt_month d) (dt_day d) 0 0 0 0.

(** [d.replace(day=day)]: [ValueError] unless the day exists in the
    month of [d]. *)
Definition replace_day (day : Z) (d : datetime) : outcome datetime :=
  if ((1 <=? day) && (day <=? days_in_month (dt_year d) (dt_month d)))%Z
  then Ret (Datetime (dt_year d) (dt_month d) day (dt_hour d) (dt_minute d)
                     (dt_second d) (dt_microsecond d))
  else Raise value_error.

End Datetime.

Module NotificationManager.

(** [notification_type.value] *)
Definition value (t : NotificationType) : string :=
  match t with
  | TRADE_OPENED => "trade_opened"
  | TRADE_CLOSED => "trade_closed"
  | SIGNAL_GENERATED => "signal_generated"
  | RISK_WARNING => "risk_warning"
  | SYSTEM_STATUS => "system_status"
  | PERFORMANCE_UPDATE => "performance_update"
  end.

Section Manager.

Context {payload : Type}.

Record t : Type := Make {
  notifications : list (notification payload);
  max_notifications : Z
}.

(** [__init__] *)
Definition init (max_notifications : Z) : t := Make [] max_notifications.

(** [notification.read = True] *)
Definition mark (n : notification payload) : notification payload :=
  Notification (n_id n) (n_type n) (n_title n) (n_message n) (n_timestamp n)
               true (n_data n) (n_priority n).

(** [add_notification].  The clock is read twice: [epoch] is
    [datetime.now().timestamp()] of the first reading, [now] the second
    reading. *)
Definition add_notification (epoch : Q) (now : datetime)
    (notification_type : NotificationType) (title message : string)
    (data : option payload) (priority : string) (m : t) : string * t :=
  let notification_id :=
    (value notification_type ++ "_" ++ Py.str (Py.int epoch))%string in
  let notification :=
    Notification notification_id notification_type title message now false
                 data priority in
  let notifications := notification :: notifications m in
  let notifications :=
    if (max_notifications m <? Z.of_nat (length notifications))%Z
    then Py.slice_to (max_notifications m) notifications
    else notifications in
  (notification_id, Make notifications (max_notifications m)).

(** [get_notifications]: [if limit:] is false for [None] and for 0. *)
Definition get_notifications (limit : option Z) (unread_only : bool) (m : t)
  : list (notification payload) :=
  let notifications := notifications m in
  let notifications :=
    if unread_only then List.filter (fun n => negb (n_read n)) notifications
    else notifications in
  match limit with
  | None => notifications
  | Some limit =>
      if (limit =? 0)%Z then notifications
      else Py.slice_to limit notifications
  end.

(** The loop of [mark_as_read]: the first notification with the id is
    marked and the loop returns. *)
Fixpoint mark_first (notification_id : string) (l : list (notification payload))
  : bool * list (notification payload) :=
  match l with
  | [] => (false, [])
  | n :: rest =>
      if String.eqb (n_id n) notification_id then (true, mark n :: rest)
      else let '(found, rest') := mark_first notification_id rest in
           (found, n :: rest')
  end.

(** [mark_as_read] *)
Definition mark_as_read (notification_id : string) (m : t) : bool * t :=
  let '(found, l) := mark_first notification_id (notifications m) in
  (found, Make l (max_notifications m)).

(** [mark_all_as_read] *)
Definition mark_all_as_read (m : t) : nat * t :=
  (length (List.filter (fun n => negb (n_read n)) (notifications m)),
   Make (map (fun n => if n_read n then n else mark n) (notifications m))
        (max_notifications m)).

(** [get_unread_count] *)
Definition get_unread_count (m : t) : nat :=
  length (List.filter (fun n => negb (n_read n)) (notifications m)).

(** [clear_old_notifications]: the cutoff is today's midnight with the
    day of the month lowered by [days]. *)
Definition clear_old_notifications (now : datetime) (days : Z) (m : t)
  : outcome nat * t :=
  let cutoff_date := Datetime.midnight now in
  match Datetime.replace_day (dt_day cutoff_date - days) cutoff_date with
  | Raise e => (Raise e, m)
  | Ret cutoff_date =>
      let old_count := length (notifications m) in
      let kept :=
        List.filter (fun n => Datetime.ge (n_timestamp n) cutoff_date)
                    (notifications m) in
      (Ret (old_count - length kept)%nat, Make kept (max_notifications m))
  end.

(** What the manager can do to its list, one call at a time. *)
Inductive step : t -> t -> Prop :=
| step_add epoch now ty title message data priority m :
    step m (snd (add_notification epoch now ty title message data priority m))
| step_mark notification_id m :
    step m (snd (mark_as_read notification_id m))
| step_mark_all m :
    step m (snd (mark_all_as_read m))
| step_clear now days m :
    step m (snd (clear_old_notifications now days m)).

Inductive reachable (max_notifications : Z) : t -> Prop :=
| reachable_init : reachable max_notifications (init max_notifications)
| reachable_step m m' :
    reachable max_notifications m -> step m m' ->
    reachable max_notifications m'.

End Manager.

End NotificationManager.

(** A date in the first week of a month, and one later in it. *)
Definition march_3rd_noon : datetime := Datetime 2025 3 3 12 0 0 0.
Definition march_20th_noon : datetime := Datetime 2025 3 20 12 0 0 0.

(** A manager holding two status notifications added within one second. *)
Definition two_notifications : NotificationManager.t (payload := unit) :=
  snd (NotificationManager.add_notification 1741780800.9 march_20th_noon
         SYSTEM_STATUS "b" "second" None "normal"
         (snd (NotificationManager.add_notification 1741780800.5 march_3rd_noon
                 SYSTEM_STATUS "a" "first" None "normal"
                 (NotificationManager.init 100)))).

(** [k] calls of [mark_as_read] with the same id. *)
Definition mark_as_read_times {payload : Type} (k : nat) (notification_id : string)
    (m : NotificationManager.t (payload := payload))
  : NotificationManager.t (payload := payload) :=
  Nat.iter k (fun m => snd (NotificationManager.mark_as_read notification_id m)) m.

(** The cutoff of [clear_old_notifications] when the day exists. *)
Definition cutoff_of (now : datetime) (days : Z) : datetime :=
  Datetime (dt_year now) (dt_month now) (dt_day now - days) 0 0 0 0.

(** ** [NewsParser.analyze_sentiment] of news_parser_1754752845843

    The keyword sentiment of one text.  [text.lower()] is taken on ASCII
    letters, which is what the keywords consist of. *)

Module KeywordSentiment.

Definition positive_keywords : list string :=
  ["bullish"; "surge"; "rally"; "gain"; "increase"; "rise"; "pump"; "moon";
   "breakthrough"; "adoption"; "partnership"; "integration"; "upgrade";
   "positive"; "optimistic"; "growth"; "expansion"; "launch"; "success"]%string.

Definition negative_keywords : list string :=
  ["bearish"; "crash"; "dump"; "decline"; "fall"; "drop"; "plunge";
   "fear"; "uncertainty"; "doubt"; "hack"; "scam"; "regulation";
   "ban"; "restriction"; "concern"; "warning"; "risk"; "volatility"]%string.

(** The dictionary [analyze_sentiment] returns; the two counts are only
    present when a keyword was found. *)
Record t : Type := Make {
  sentiment_score : Q;
  confidence : Q;
  positive_words : option nat;
  negative_words : option nat
}.

Definition no_sentiment : t := Make 0 0 None None.

(** [sum(1 for keyword in keywords if keyword in text_lower)] *)
Definition count (keywords : list string) (text_lower : string) : nat :=
  length (List.filter (fun keyword => Py.contains keyword text_lower) keywords).

Definition positive_count (text : string) : nat :=
  count positive_keywords (Py.lower text).

Definition negative_count (text : string) : nat :=
  count negative_keywords (Py.lower text).

(** [analyze_sentiment] *)
Definition analyze_sentiment (text : string) : t :=
  if String.eqb text "" then no_sentiment
  else
    let text_lower := Py.lower text in
    let positive_count := count positive_keywords text_lower in
    let negative_count := count negative_keywords text_lower in
    let total_sentiment_words := (positive_count + negative_count)%nat in
    if (total_sentiment_words =? 0)%nat then no_sentiment
    else
      let sentiment_score :=
        (inject_Z (Z.of_nat positive_count) - inject_Z (Z.of_nat negative_count))
        / inject_Z (Z.of_nat total_sentiment_words) in
      let confidence :=
        Py.min 1.0 (inject_Z (Z.of_nat total_sentiment_words) / 10.0) in
      Make sentiment_score confidence (Some positive_count) (Some negative_count).

End KeywordSentiment.




(** * Part II: properties *)

(** ** Comparisons and the clamp idiom *)

Lemma gt_true a b : Py.gt a b = true <-> b < a.
Proof. unfold Py.gt. destruct (Qlt_le_dec b a); split; intros; try easy; lra. Qed.

Lemma gt_false a b : Py.gt a b = false <-> a <= b.
Proof. unfold Py.gt. destruct (Qlt_le_dec b a); split; intros; try easy; lra. Qed.

Lemma lt_true a b : Py.lt a b = true <-> a < b.
Proof. apply gt_true. Qed.

Lemma lt_false a b : Py.lt a b = false <-> b <= a.
Proof. apply gt_false. Qed.

Lemma ge_true a b : Py.ge a b = true <-> b <= a.
Proof. unfold Py.ge. rewrite negb_true_iff. apply lt_false. Qed.

Lemma ge_false a b : Py.ge a b = false <-> a < b.
Proof. unfold Py.ge. rewrite negb_false_iff. apply lt_true. Qed.

Lemma le_true a b : Py.le a b = true <-> a <= b.
Proof. unfold Py.le. rewrite negb_true_iff. apply gt_false. Qed.

Lemma le_false a b : Py.le a b = false <-> b < a.
Proof. unfold Py.le. rewrite negb_false_iff. apply gt_true. Qed.

(** Case analysis on a comparison, leaving the order fact in context. *)
Ltac case_cmp :=
  match goal with
  | |- context [Py.gt ?a ?b] =>
      let E := fresh "E" in
      destruct (Py.gt a b) eqn:E;
      [apply gt_true in E | apply gt_false in E]
  | |- context [Py.lt ?a ?b] =>
      let E := fresh "E" in
      destruct (Py.lt a b) eqn:E;
      [apply lt_true in E | apply lt_false in E]
  | |- context [Py.ge ?a ?b] =>
      let E := fresh "E" in
      destruct (Py.ge a b) eqn:E;
      [apply ge_true in E | apply ge_false in E]
  | |- context [Py.le ?a ?b] =>
      let E := fresh "E" in
      destruct (Py.le a b) eqn:E;
      [apply le_true in E | apply le_false in E]
  end.

(** [max(lo, min(hi, x))] lies in [lo, hi] whatever [x] is. *)
Lemma clamp_bounds lo hi x :
  lo <= hi -> lo <= Py.max lo (Py.min hi x) <= hi.
Proof.
  intros Hlh. unfold Py.max, Py.min.
  destruct (Qlt_le_dec x hi); destruct (Qlt_le_dec lo _); split; lra.
Qed.

(** Inside the interval the clamp changes nothing. *)
Lemma clamp_id lo hi x : lo <= x <= hi -> Py.max lo (Py.min hi x) == x.
Proof.
  intros [H1 H2]. unfold Py.max, Py.min.
  destruct (Qlt_le_dec x hi); destruct (Qlt_le_dec lo _); lra.
Qed.

Lemma clamp_score x : 0 <= Py.max 0 (Py.min 100 x) <= 100.
Proof. apply clamp_bounds. lra. Qed.

Lemma clamp_confidence x : 0 <= Py.max 0 (Py.min 95 x) <= 95.
Proof. apply clamp_bounds. lra. Qed.

(** ** Adaptive weights *)

Section WeightFacts.

Import IntelligentTraderV2.

Lemma total_unfold (w : weights) :
  total w == w technical + w fundamental + w sentiment + w momentum.
Proof. unfold total, Py.sum. simpl. lra. Qed.

Lemma set_weight_same k v w : set_weight k v w k = v.
Proof. unfold set_weight. destruct (decide (k = k)); congruence. Qed.

Lemma set_weight_nonneg k v (w : weights) :
  0 <= v -> (forall c, 0 <= w c) -> forall c, 0 <= set_weight k v w c.
Proof.
  intros Hv Hw c. unfold set_weight. destruct (decide (c = k)); auto.
Qed.

(** After the adjustment the sum of the weights is at least the floor
    0.1 of the adjusted one, as long as no weight is negative. *)
Lemma adjusted_total_positive k x (w : weights) :
  (forall c, 0 <= w c) ->
  0.1 <= total (set_weight k (Py.max 0.1 (Py.min 0.6 x)) w).
Proof.
  intros Hw.
  pose proof (clamp_bounds 0.1 0.6 x ltac:(lra)) as [Hlo _].
  set (v := Py.max 0.1 (Py.min 0.6 x)) in *.
  assert (Hv : 0 <= v) by lra.
  pose proof (set_weight_nonneg k v w Hv Hw) as Hn.
  pose proof (set_weight_same k v w) as Hk.
  rewrite total_unfold.
  pose proof (Hn technical). pose proof (Hn fundamental).
  pose proof (Hn sentiment). pose proof (Hn momentum).
  destruct k; rewrite Hk in *; lra.
Qed.


(** No weight turns negative, so the invariant carries over to the next
    update. *)
Lemma update_ai_weights_nonneg analysis_data performance (w : weights) :
  (forall c, 0 <= w c) ->
  forall c, 0 <= update_ai_weights analysis_data performance w c.
Proof.
  intros Hw c. unfold update_ai_weights.
  set (k := strongest_factor (scores analysis_data)).
  set (x := w k + _).
  pose proof (adjusted_total_positive k x w Hw) as Hpos.
  pose proof (clamp_bounds 0.1 0.6 x ltac:(lra)) as [Hlo _].
  assert (Hn : forall c, 0 <= set_weight k (Py.max 0.1 (Py.min 0.6 x)) w c).
  { apply set_weight_nonneg; [lra | exact Hw]. }
  set (w1 := set_weight k _ w) in *.
  destruct (Qeq_bool (total w1) 0) eqn:E; [apply Hn |].
  apply Qle_shift_div_l; [lra |]. specialize (Hn c). lra.
Qed.



End WeightFacts.

(** ** Confidence of an interpreted signal *)

(** The 65/35 interpreter keeps the confidence in [0, 95]. *)
Lemma interpret_analysis_score_v1_bounded total_score t f s m :
  0 <= snd (fst (IntelligentTraderV1._interpret_analysis_score total_score t f s m)) <= 95.
Proof. unfold IntelligentTraderV1._interpret_analysis_score. simpl. apply clamp_confidence. Qed.

(** So does [SignalGenerator._interpret_signal]. *)
Lemma interpret_signal_bounded final_score t p v s :
  0 <= sg_confidence (SignalGenerator._interpret_signal final_score t p v s) <= 95.
Proof.
  unfold SignalGenerator._interpret_signal.
  destruct (if Py.ge final_score 65 then _ else _) as [action confidence].
  simpl. apply clamp_confidence.
Qed.

(** The 70/30 interpreter caps the BUY and SELL branches at 95. *)
Lemma interpret_analysis_score_v2_buy_sell fmt1 total_score t f s m :
  total_score <= 30 \/ 70 <= total_score ->
  70 <= snd (fst (IntelligentTraderV2._interpret_analysis_score fmt1 total_score t f s m)) <= 95.
Proof.
  intros H. unfold IntelligentTraderV2._interpret_analysis_score.
  repeat case_cmp; simpl; unfold Py.min;
    repeat match goal with |- context [Qlt_le_dec ?a ?b] => destruct (Qlt_le_dec a b) end;
    lra.
Qed.

(** Its HOLD branch yields [100 - 2 * |total_score - 50|], which lies in
    (60, 100]. *)
Lemma interpret_analysis_score_v2_hold fmt1 total_score t f s m :
  30 < total_score < 70 ->
  let r := IntelligentTraderV2._interpret_analysis_score fmt1 total_score t f s m in
  fst (fst r) = "HOLD"%string /\
  snd (fst r) == 100 - Py.abs (total_score - 50) * 2 /\
  60 < snd (fst r) <= 100.
Proof.
  intros H. unfold IntelligentTraderV2._interpret_analysis_score.
  repeat case_cmp; try lra. simpl. unfold Py.abs.
  destruct (Qlt_le_dec _ 0); repeat split; lra.
Qed.

(** C2.  At a total score of 50 the 70/30 interpreter answers HOLD with
    confidence 100, above the ceiling of 95. *)
Theorem interpret_analysis_score_v2_hold_exceeds_ceiling fmt1 :
  let r := IntelligentTraderV2._interpret_analysis_score fmt1 50 50 50 50 50 in
  fst (fst r) = "HOLD"%string /\ snd (fst r) == 100 /\ ~ snd (fst r) <= 95.
Proof.
  cbv zeta. split; [| split].
  - vm_compute. reflexivity.
  - vm_compute. reflexivity.
  - intros H. vm_compute in H. apply H. reflexivity.
Qed.

(** ** Category scores *)

(** Walks through a scorer body written in the option monad without
    unfolding its [let]s: a bound value becomes an arbitrary number, a
    branch is split, and the clamp at the end closes the case. *)
Lemma score_bounded_bind {A : Type} (m : option A) (f : A -> option Q) :
  (forall x, score_bounded (f x)) -> score_bounded (m ≫= f).
Proof.
  intros H r Hr. destruct m as [x |]; [| discriminate]. exact (H x r Hr).
Qed.

Lemma score_bounded_clamp x : score_bounded (Some (Py.max 0 (Py.min 100 x))).
Proof. intros r Hr. injection Hr as <-. apply clamp_score. Qed.

Lemma score_bounded_none : score_bounded None.
Proof. intros r Hr. discriminate. Qed.

Ltac walk_body :=
  repeat first
    [ apply score_bounded_clamp
    | apply score_bounded_none
    | apply score_bounded_bind; intros ?
    | match goal with
      | |- score_bounded (let x := ?v in @?b x) =>
          let y := fresh "score" in
          pose (y := v); change (score_bounded (b y)); cbv beta;
          clearbody y
      | |- score_bounded (if ?c then _ else _) => destruct c
      end ].

Lemma technical_score_of_bounded a :
  score_bounded (IntelligentTraderV2.technical_score_of a).
Proof. unfold IntelligentTraderV2.technical_score_of. walk_body. Qed.

Lemma calculate_technical_score_bounded get_comprehensive_analysis df :
  0 <= IntelligentTraderV2._calculate_technical_score get_comprehensive_analysis df <= 100.
Proof.
  unfold IntelligentTraderV2._calculate_technical_score.
  destruct (get_comprehensive_analysis df) as [a |]; [| lra].
  destruct (negb _); [lra |].
  destruct (IntelligentTraderV2.technical_score_of a) eqn:E; [| lra].
  exact (technical_score_of_bounded a _ E).
Qed.

Lemma calculate_fundamental_score_bounded symbol df :
  0 <= IntelligentTraderV2._calculate_fundamental_score symbol df <= 100.
Proof. unfold IntelligentTraderV2._calculate_fundamental_score. apply clamp_score. Qed.

Lemma calculate_sentiment_score_bounded get_symbol_news get_market_sentiment symbol :
  0 <= IntelligentTraderV2._calculate_sentiment_score
         get_symbol_news get_market_sentiment symbol <= 100.
Proof.
  unfold IntelligentTraderV2._calculate_sentiment_score.
  match goal with |- context [match ?m with Some _ => _ | None => 50 end] =>
    destruct m end; [apply clamp_score | lra].
Qed.

Lemma momentum_score_of_bounded df :
  score_bounded (IntelligentTraderV2.momentum_score_of df).
Proof. unfold IntelligentTraderV2.momentum_score_of. walk_body. Qed.

Lemma calculate_momentum_score_bounded df :
  0 <= IntelligentTraderV2._calculate_momentum_score df <= 100.
Proof.
  unfold IntelligentTraderV2._calculate_momentum_score.
  destruct (IntelligentTraderV2.momentum_score_of df) eqn:E; [| lra].
  exact (momentum_score_of_bounded df _ E).
Qed.

Lemma technical_indicators_of_bounded a indicators :
  score_bounded (SignalGenerator.technical_indicators_of a indicators).
Proof. unfold SignalGenerator.technical_indicators_of. walk_body. Qed.

Lemma analyze_technical_indicators_bounded get_comprehensive_analysis get_all_indicators data :
  0 <= SignalGenerator._analyze_technical_indicators
         get_comprehensive_analysis get_all_indicators data <= 100.
Proof.
  unfold SignalGenerator._analyze_technical_indicators.
  destruct (get_comprehensive_analysis data) as [a |]; [| lra].
  destruct (negb _); [lra |].
  destruct (SignalGenerator.technical_indicators_of a _) eqn:E; [| lra].
  exact (technical_indicators_of_bounded a _ _ E).
Qed.

(** C7.  Whatever the symbol, the frame and the answers of the analysis
    and news collaborators, each of the four category scorers, and the
    technical scorer of the signal generator, returns a value in
    [0, 100]. *)
Theorem category_scores_bounded
    (get_comprehensive_analysis : list bar -> option (gmap string value))
    (get_all_indicators : list bar -> option SignalGenerator.indicators_data)
    (get_symbol_news : string -> Z -> list news_item)
    (get_market_sentiment : gmap string value)
    (symbol : string) (df : list bar) :
  0 <= IntelligentTraderV2._calculate_technical_score get_comprehensive_analysis df <= 100 /\
  0 <= IntelligentTraderV2._calculate_fundamental_score symbol df <= 100 /\
  0 <= IntelligentTraderV2._calculate_sentiment_score
         get_symbol_news get_market_sentiment symbol <= 100 /\
  0 <= IntelligentTraderV2._calculate_momentum_score df <= 100 /\
  0 <= SignalGenerator._analyze_technical_indicators
         get_comprehensive_analysis get_all_indicators df <= 100.
Proof.
  repeat apply conj.
  all: first
    [ apply calculate_technical_score_bounded
    | apply calculate_fundamental_score_bounded
    | apply calculate_sentiment_score_bounded
    | apply calculate_momentum_score_bounded
    | apply analyze_technical_indicators_bounded ].
Qed.

(** ** Insufficient data *)

(** An empty dictionary is falsy. *)
Lemma truthy_empty : truthy (Some ∅) = false.
Proof. unfold truthy. rewrite bool_decide_eq_true_2; reflexivity. Qed.

(** C6.  On a frame of fewer than 50 bars [get_comprehensive_analysis]
    returns the empty dictionary, whatever the indicator engine would
    do, and the technical scorers consuming it return exactly 50. *)
Theorem insufficient_data_is_neutral
    (latest_data : list bar -> option (gmap string value))
    (get_all_indicators : list bar -> option SignalGenerator.indicators_data)
    (data : list bar) :
  (length data < 50)%nat ->
  TechnicalAnalysis.get_comprehensive_analysis latest_data data = Some ∅ /\
  IntelligentTraderV2._calculate_technical_score
    (TechnicalAnalysis.get_comprehensive_analysis latest_data) data = 50 /\
  SignalGenerator._analyze_technical_indicators
    (TechnicalAnalysis.get_comprehensive_analysis latest_data)
    get_all_indicators data = 50.
Proof.
  intros Hlen.
  assert (E : TechnicalAnalysis.get_comprehensive_analysis latest_data data = Some ∅).
  { unfold TechnicalAnalysis.get_comprehensive_analysis.
    apply Nat.ltb_lt in Hlen. rewrite Hlen. reflexivity. }
  split; [exact E |].
  unfold IntelligentTraderV2._calculate_technical_score,
    SignalGenerator._analyze_technical_indicators.
  rewrite E, truthy_empty. split; reflexivity.
Qed.

Lemma insufficient_data_is_neutral_witness :
  TechnicalAnalysis.get_comprehensive_analysis (fun _ => None) (flat_series 10) = Some ∅ /\
  IntelligentTraderV2._calculate_technical_score
    (TechnicalAnalysis.get_comprehensive_analysis (fun _ => None)) (flat_series 10) = 50 /\
  SignalGenerator._analyze_technical_indicators
    (TechnicalAnalysis.get_comprehensive_analysis (fun _ => None))
    (fun _ => None) (flat_series 10) = 50.
Proof.
  apply (insufficient_data_is_neutral (fun _ => None) (fun _ => None) (flat_series 10)).
  vm_compute. lia.
Defined.

(** The variant that answers [None] is neutral as well. *)
Lemma insufficient_data_talib latest_data data :
  (length data < 50)%nat ->
  IntelligentTraderV2._calculate_technical_score
    (TechnicalAnalysis.get_comprehensive_analysis_talib latest_data) data = 50.
Proof.
  intros Hlen. unfold IntelligentTraderV2._calculate_technical_score,
    TechnicalAnalysis.get_comprehensive_analysis_talib.
  apply Nat.ltb_lt in Hlen. rewrite Hlen. reflexivity.
Qed.

(** The variant that answers with an ['error'] entry is not: its
    dictionary is truthy, every indicator takes its default, and the two
    "else" adjustments of the scorer bring the score down to 30. *)
Lemma insufficient_data_extended latest_data data :
  (length data < 50)%nat ->
  IntelligentTraderV2._calculate_technical_score
    (TechnicalAnalysis.get_comprehensive_analysis_extended latest_data) data == 30.
Proof.
  intros Hlen. unfold IntelligentTraderV2._calculate_technical_score,
    TechnicalAnalysis.get_comprehensive_analysis_extended.
  apply Nat.ltb_lt in Hlen. rewrite Hlen. vm_compute. reflexivity.
Qed.

(** ** Filtered and ranked lists *)

Lemma firstn_incl {A : Type} n (l : list A) z : In z (firstn n l) -> In z l.
Proof.
  revert n. induction l as [| y rest IH]; intros [| n]; simpl; try tauto.
  intros [-> | H]; [left; reflexivity | right; eapply IH; exact H].
Qed.

Lemma firstn_Forall {A : Type} (P : A -> Prop) n (l : list A) :
  Forall P l -> Forall P (firstn n l).
Proof.
  intros H. apply List.Forall_forall. intros z Hz.
  rewrite List.Forall_forall in H. apply H. eapply firstn_incl. exact Hz.
Qed.

Lemma slice_to_Forall {A : Type} (P : A -> Prop) n (l : list A) :
  Forall P l -> Forall P (Py.slice_to n l).
Proof. intros H. unfold Py.slice_to. destruct (0 <=? n)%Z; apply firstn_Forall, H. Qed.

Section SortFacts.

Context {A : Type} (key : A -> Q).







End SortFacts.





(** ** Price refresh *)

Lemma reprice_frame price_updates price p :
  price_updates !! Position.symbol p = Some price ->
  frame_ok price_updates p (fst (TradingHistory.reprice price p)).
Proof.
  intros Hin. unfold TradingHistory.reprice.
  destruct (Qeq_bool _ 0); simpl; repeat split; congruence.
Qed.

Lemma frame_ok_refl price_updates p : frame_ok price_updates p p.
Proof. repeat split. Qed.

Lemma reprice_all_frame price_updates ps :
  Forall2 (frame_ok price_updates) ps
          (fst (TradingHistory.reprice_all price_updates ps)).
Proof.
  induction ps as [| p rest IH]; simpl; [constructor |].
  destruct (price_updates !! Position.symbol p) as [price |] eqn:Hin.
  - pose proof (reprice_frame price_updates price p Hin) as Hp.
    destruct (TradingHistory.reprice price p) as [p' ok]. simpl in Hp.
    destruct ok.
    + destruct (TradingHistory.reprice_all price_updates rest) as [rest' ok'].
      constructor; assumption.
    + constructor; [exact Hp |].
      clear. induction rest; constructor; auto using frame_ok_refl.
  - destruct (TradingHistory.reprice_all price_updates rest) as [rest' ok'].
    constructor; [apply frame_ok_refl | exact IH].
Qed.

(** C9.  Whether it runs to the end or stops at a division by zero,
    [update_position_prices] leaves the trades alone, keeps the number
    and order of the positions, keeps the symbol, side, quantity, entry
    price, entry time and exchange of each, and leaves every position
    whose symbol is not in the map exactly as it was. *)
Theorem update_position_prices_frame (price_updates : gmap string Q)
    (h : TradingHistory.t) :
  let h' := snd (TradingHistory.update_position_prices price_updates h) in
  TradingHistory.trades h' = TradingHistory.trades h /\
  length (TradingHistory.positions h') = length (TradingHistory.positions h) /\
  Forall2 (frame_ok price_updates)
          (TradingHistory.positions h) (TradingHistory.positions h').
Proof.
  cbv zeta. unfold TradingHistory.update_position_prices.
  pose proof (reprice_all_frame price_updates (TradingHistory.positions h)) as H.
  destruct (TradingHistory.reprice_all _ _) as [ps ok]. simpl in *.
  split; [reflexivity |]. split; [| exact H].
  symmetry. eapply Forall2_length. exact H.
Qed.

(** Only the price and the two profit fields of a repriced position
    change, and they are the ones the new price determines. *)
Lemma reprice_long price p :
  Position.side p = "LONG"%string ->
  ~ Position.entry_price p * Position.quantity p == 0 ->
  let p' := fst (TradingHistory.reprice price p) in
  snd (TradingHistory.reprice price p) = true /\
  Position.current_price p' = price /\
  Position.unrealized_pnl p' = (price - Position.entry_price p) * Position.quantity p /\
  Position.unrealized_pnl_pct p' =
    (price - Position.entry_price p) * Position.quantity p
    / (Position.entry_price p * Position.quantity p) * 100.
Proof.
  intros Hside Hcost. unfold TradingHistory.reprice. cbn [Position.side
    Position.set_current_price Position.set_unrealized_pnl Position.entry_price
    Position.quantity Position.current_price].
  rewrite Hside. cbn [String.eqb Ascii.eqb Bool.eqb].
  destruct (Qeq_bool _ 0) eqn:E.
  - apply Qeq_bool_eq in E. contradiction.
  - cbn. repeat split.
Qed.

(** ** One position per symbol *)

Section PositionFacts.

Import TradingHistory.

Lemma without_same s ps : of_symbol s (without s ps) = [].
Proof.
  unfold of_symbol, without. induction ps as [| p rest IH]; simpl; [reflexivity |].
  destruct (String.eqb (Position.symbol p) s) eqn:E; simpl; [exact IH |].
  rewrite E. exact IH.
Qed.

Lemma without_shorter s s' ps :
  (length (of_symbol s (without s' ps)) <= length (of_symbol s ps))%nat.
Proof.
  unfold of_symbol, without. induction ps as [| p rest IH]; simpl; [lia |].
  destruct (String.eqb (Position.symbol p) s') eqn:E; simpl;
    destruct (String.eqb (Position.symbol p) s); simpl; lia.
Qed.

Lemma of_symbol_length_by_symbols s ps ps' :
  map Position.symbol ps' = map Position.symbol ps ->
  length (of_symbol s ps') = length (of_symbol s ps).
Proof.
  unfold of_symbol.
  revert ps'. induction ps as [| p rest IH]; intros [| p' rest'] H;
    simpl in *; try discriminate; [reflexivity |].
  injection H as Hp Hrest. rewrite Hp.
  destruct (String.eqb (Position.symbol p) s); simpl; auto.
Qed.

Lemma reprice_all_symbols price_updates ps :
  map Position.symbol (fst (reprice_all price_updates ps)) = map Position.symbol ps.
Proof.
  pose proof (reprice_all_frame price_updates ps) as H.
  induction H as [| p p' rest rest' Hp Hrest IH]; simpl; [reflexivity |].
  destruct Hp as [Hs _]. rewrite Hs, IH. reflexivity.
Qed.

Lemma add_position_invariant now symbol side quantity entry_price exchange h :
  one_position_per_symbol h ->
  one_position_per_symbol (add_position now symbol side quantity entry_price exchange h).
Proof.
  intros Hinv s. unfold positions_of, add_position. cbn [positions].
  unfold of_symbol at 1. rewrite List.filter_app, length_app.
  fold (of_symbol s (without symbol (positions h))).
  cbn [List.filter Position.symbol].
  destruct (String.eqb symbol s) eqn:E.
  - apply String.eqb_eq in E. subst s. rewrite without_same. simpl. lia.
  - simpl. pose proof (without_shorter s symbol (positions h)).
    specialize (Hinv s). unfold positions_of in Hinv. lia.
Qed.

Lemma remove_position_invariant symbol h :
  one_position_per_symbol h -> one_position_per_symbol (remove_position symbol h).
Proof.
  intros Hinv s. unfold positions_of, remove_position. cbn [positions].
  pose proof (without_shorter s symbol (positions h)).
  specialize (Hinv s). unfold positions_of in Hinv. lia.
Qed.

(** A state with the same positions satisfies the invariant too. *)
Lemma same_positions_invariant h h' :
  positions h' = positions h ->
  one_position_per_symbol h -> one_position_per_symbol h'.
Proof. intros E Hinv s. unfold positions_of. rewrite E. apply Hinv. Qed.

Lemma add_trade_invariant now symbol action entry_price quantity confidence
    reasoning exchange demo_mode h :
  one_position_per_symbol h ->
  one_position_per_symbol
    (snd (add_trade now symbol action entry_price quantity confidence
            reasoning exchange demo_mode h)).
Proof.
  intros Hinv. unfold add_trade. cbn [snd].
  destruct (String.eqb action "BUY").
  - apply add_position_invariant.
    eapply same_positions_invariant; [| exact Hinv]. reflexivity.
  - eapply same_positions_invariant; [| exact Hinv]. reflexivity.
Qed.

Lemma close_trade_invariant now trade_id exit_price fees h :
  one_position_per_symbol h ->
  one_position_per_symbol (snd (close_trade now trade_id exit_price fees h)).
Proof.
  intros Hinv. unfold close_trade.
  destruct (close_first _ _ _ _ _) as [ts [[symbol []] |]]; cbn [snd].
  - apply remove_position_invariant.
    eapply same_positions_invariant; [| exact Hinv]. reflexivity.
  - eapply same_positions_invariant; [| exact Hinv]. reflexivity.
  - exact Hinv.
Qed.

Lemma update_position_prices_invariant price_updates h :
  one_position_per_symbol h ->
  one_position_per_symbol (snd (update_position_prices price_updates h)).
Proof.
  intros Hinv s. unfold update_position_prices, positions_of.
  pose proof (reprice_all_symbols price_updates (positions h)) as H.
  destruct (reprice_all _ _) as [ps ok]. cbn [snd fst positions] in *.
  rewrite (of_symbol_length_by_symbols s _ _ H). apply Hinv.
Qed.

Lemma step_invariant h h' :
  step h h' -> one_position_per_symbol h -> one_position_per_symbol h'.
Proof.
  intros Hstep Hinv. destruct Hstep.
  - apply add_trade_invariant, Hinv.
  - apply close_trade_invariant, Hinv.
  - apply add_position_invariant, Hinv.
  - apply remove_position_invariant, Hinv.
  - apply update_position_prices_invariant, Hinv.
  - intros s. unfold positions_of. simpl. lia.
Qed.

Lemma reachable_invariant h : reachable h -> one_position_per_symbol h.
Proof.
  induction 1 as [| h h' Hreach IH Hstep].
  - intros s. unfold positions_of. simpl. lia.
  - eapply step_invariant; eauto.
Qed.

(** [add_trade] looks nothing up: the record it appends is OPEN, for the
    requested symbol, whatever the history already holds. *)
Lemma add_trade_appends now symbol action entry_price quantity confidence
    reasoning exchange demo_mode h :
  let r := add_trade now symbol action entry_price quantity confidence
             reasoning exchange demo_mode h in
  exists trade,
    trades (snd r) = trades h ++ [trade] /\
    TradeRecord.trade_id trade = fst r /\
    TradeRecord.symbol trade = symbol /\
    TradeRecord.status trade = "OPEN"%string.
Proof.
  cbv zeta. unfold add_trade. eexists. cbn [fst snd].
  split.
  { destruct (String.eqb action "BUY"); reflexivity. }
  repeat split.
Qed.

(** C3, as the code has it.  In every reachable state of the trading
    history there is at most one position per symbol, while [add_trade]
    never rejects an entry: it appends one more OPEN trade for the
    symbol, so the open trades of that symbol grow by one. *)
Theorem one_position_many_open_trades h :
  reachable h ->
  one_position_per_symbol h /\
  forall now symbol action entry_price quantity confidence reasoning
         exchange demo_mode,
    let h' := snd (add_trade now symbol action entry_price quantity confidence
                     reasoning exchange demo_mode h) in
    one_position_per_symbol h' /\
    length (open_trades_of symbol h') = S (length (open_trades_of symbol h)).
Proof.
  intros Hreach. pose proof (reachable_invariant h Hreach) as Hinv.
  split; [exact Hinv |].
  intros now symbol action entry_price quantity conf reasoning exchange demo_mode.
  cbv zeta. split; [apply add_trade_invariant, Hinv |].
  pose proof (add_trade_appends now symbol action entry_price quantity
                conf reasoning exchange demo_mode h) as H.
  cbv zeta in H. destruct H as (trade & Htrades & _ & Hsym & Hstatus).
  unfold open_trades_of, get_open_trades. rewrite Htrades.
  rewrite !List.filter_app, !length_app. cbn [List.filter].
  rewrite Hstatus. cbn [String.eqb Ascii.eqb Bool.eqb List.filter].
  rewrite Hsym, String.eqb_refl. simpl. lia.
Qed.

End PositionFacts.

Lemma btc_once_reachable : TradingHistory.reachable btc_once.
Proof.
  eapply TradingHistory.reachable_step; [apply TradingHistory.reachable_init |].
  apply TradingHistory.step_add_trade.
Qed.

Lemma one_position_many_open_trades_witness :
  TradingHistory.reachable btc_once /\
  one_position_per_symbol btc_once /\
  one_position_per_symbol btc_twice /\
  length (TradingHistory.open_trades_of "BTCUSDT" btc_twice)
  = S (length (TradingHistory.open_trades_of "BTCUSDT" btc_once)).
Proof.
  pose proof (one_position_many_open_trades btc_once btc_once_reachable) as [H1 H2].
  specialize (H2 60 "BTCUSDT"%string "BUY"%string 101 1 80
                EmptyString "MEXC"%string true).
  cbv zeta in H2. destruct H2 as [H2 H3].
  split; [exact btc_once_reachable |].
  split; [exact H1 |]. split; [exact H2 | exact H3].
Defined.

(** A second entry for a symbol that already has an OPEN trade is
    accepted: it gets its own trade id, and the history then holds two
    OPEN trades for that symbol. *)
Lemma second_entry_is_accepted :
  map TradeRecord.status (TradingHistory.open_trades_of "BTCUSDT" btc_once)
  = ["OPEN"%string] /\
  fst (TradingHistory.add_trade 60 "BTCUSDT" "BUY" 101 1 80 "" "MEXC" true btc_once)
  = "BTCUSDT_BUY_60"%string /\
  map TradeRecord.trade_id (TradingHistory.open_trades_of "BTCUSDT" btc_twice)
  = ["BTCUSDT_BUY_0"; "BTCUSDT_BUY_60"]%string /\
  length (TradingHistory.positions_of "BTCUSDT" btc_twice) = 1%nat.
Proof. vm_compute. repeat split. Qed.

(** ** Trade execution *)

Section ExecuteFacts.

Import IntelligentTraderV1.

Variables (cfg : config) (mexc_client : client) (now : Q).
Variables (symbol action : string) (conf : Q) (reasoning : string).
Variable h : TradingHistory.t.

Let r := execute_trade cfg mexc_client now symbol action conf reasoning h.








End ExecuteFacts.




(** ** Exit rules *)

Section ExitFacts.

Import IntelligentTraderV1.

Variable fmt1 : Q -> string.
Variable analyze_symbol : string -> option (string * Q).
Variable cfg : config.


End ExitFacts.

(** ** A long position from entry to exit *)


Section LifecycleFacts.

Import IntelligentTraderV1.

Variable fmt1 : Q -> string.
Variable analyze_symbol : string -> option (string * Q).
Variable cfg : config.
Variable mexc_client : client.
Variables (t0 now : Q) (symbol : string) (e q c : Q) (orderId : option Z).

Hypothesis entry_positive : 0 < e.
Hypothesis quantity_positive : 0 < q.
Hypothesis within_hold_time : now - t0 <= max_hold_time_hours cfg * 3600.
Hypothesis quote : get_ticker_price mexc_client symbol = TickerPrice (Some c).
Hypothesis order_filled :
  place_order mexc_client symbol "SELL" "MARKET" q = OrderAck orderId.







End LifecycleFacts.



(** ** Sentiment labels *)

(** The market label of the weighted aggregator is the labelling the
    specification words. *)
Lemma market_label_is_spec_label s : NewsParserV2.market_label s = spec_label s.
Proof.
  unfold NewsParserV2.market_label, spec_label, Py.gt, Py.lt, Py.gt.
  repeat match goal with |- context [Qlt_le_dec ?a ?b] => destruct (Qlt_le_dec a b) end;
    reflexivity.
Qed.

(** Its symbol label agrees with it except in the two bands between 0.15
    and 0.2 in absolute value, where it already says Bullish or
    Bearish. *)
Lemma symbol_label_vs_spec_label s :
  (s <= 0.15 \/ 0.2 < s -> - 0.15 <= s \/ s < - 0.2 ->
   NewsParserV2.symbol_label s = spec_label s) /\
  (0.15 < s <= 0.2 ->
   NewsParserV2.symbol_label s = "Bullish"%string /\
   spec_label s = "Slightly Bullish"%string) /\
  (- 0.2 <= s < - 0.15 ->
   NewsParserV2.symbol_label s = "Bearish"%string /\
   spec_label s = "Slightly Bearish"%string).
Proof.
  unfold NewsParserV2.symbol_label, spec_label, Py.gt, Py.lt, Py.gt.
  repeat split; intros;
    repeat match goal with H : _ \/ _ |- _ => destruct H end;
    repeat match goal with |- context [Qlt_le_dec ?a ?b] => destruct (Qlt_le_dec a b) end;
    first [reflexivity | exfalso; lra].
Qed.

(** The basic aggregator knows three labels, cut at 0.1. *)
Lemma basic_label_cases s :
  (0.1 < s -> NewsParserV1.label s = "Bullish"%string) /\
  (s < - 0.1 -> NewsParserV1.label s = "Bearish"%string) /\
  (- 0.1 <= s <= 0.1 -> NewsParserV1.label s = "Neutral"%string).
Proof.
  unfold NewsParserV1.label, Py.gt, Py.lt, Py.gt.
  repeat split; intros;
    repeat match goal with |- context [Qlt_le_dec ?a ?b] => destruct (Qlt_le_dec a b) end;
    first [reflexivity | exfalso; lra].
Qed.

(** C8, as the code has it.  The market-wide aggregator of
    news_parser_1754755741844 labels its aggregate score as the
    specification says; its symbol aggregator cuts Bullish and Bearish
    at 0.15 instead of 0.2; the two aggregators of
    news_parser_1754752845843 answer Bullish above 0.1, Bearish below
    -0.1 and Neutral in between. *)
Theorem sentiment_labels (articles : list scored_article) :
  (let r := NewsParserV2.get_market_sentiment articles in
   overall_sentiment r = spec_label (sentiment_score r)) /\
  (forall r, NewsParserV2.analyze_symbol_sentiment articles = Some r ->
     let s := sentiment_score r in
     (0.15 < s -> overall_sentiment r = "Bullish"%string) /\
     (0.05 < s <= 0.15 -> overall_sentiment r = "Slightly Bullish"%string) /\
     (s < - 0.15 -> overall_sentiment r = "Bearish"%string) /\
     (- 0.15 <= s < - 0.05 -> overall_sentiment r = "Slightly Bearish"%string) /\
     (- 0.05 <= s <= 0.05 -> overall_sentiment r = "Neutral"%string)) /\
  (let r := NewsParserV1.get_market_sentiment articles in
   let s := sentiment_score r in
   (0.1 < s -> overall_sentiment r = "Bullish"%string) /\
   (s < - 0.1 -> overall_sentiment r = "Bearish"%string) /\
   (- 0.1 <= s <= 0.1 -> overall_sentiment r = "Neutral"%string)) /\
  (forall r, NewsParserV1.analyze_symbol_sentiment articles = Some r ->
     let s := sentiment_score r in
     (0.1 < s -> overall_sentiment r = "Bullish"%string) /\
     (s < - 0.1 -> overall_sentiment r = "Bearish"%string) /\
     (- 0.1 <= s <= 0.1 -> overall_sentiment r = "Neutral"%string)).
Proof.
  split; [| split; [| split]].
  - cbv zeta. unfold NewsParserV2.get_market_sentiment.
    destruct (NewsParserV2.market_kept articles);
      unfold neutral_sentiment; cbn [overall_sentiment sentiment_score].
    + reflexivity.
    + apply market_label_is_spec_label.
  - intros r. unfold NewsParserV2.analyze_symbol_sentiment.
    destruct (NewsParserV2.symbol_kept articles); intros H; [discriminate H |].
    injection H as <-. cbn [overall_sentiment sentiment_score].
    unfold NewsParserV2.symbol_label, Py.gt, Py.lt, Py.gt.
    repeat split; intros;
      repeat match goal with |- context [Qlt_le_dec ?a ?b] => destruct (Qlt_le_dec a b) end;
      first [reflexivity | exfalso; lra].
  - cbv zeta. unfold NewsParserV1.get_market_sentiment.
    destruct (NewsParserV1.kept articles);
      unfold neutral_sentiment; cbn [overall_sentiment sentiment_score].
    + repeat split; intros; first [reflexivity | exfalso; lra].
    + apply basic_label_cases.
  - intros r. unfold NewsParserV1.analyze_symbol_sentiment.
    destruct (NewsParserV1.kept articles); intros H; [discriminate H |].
    injection H as <-. cbn [overall_sentiment sentiment_score].
    apply basic_label_cases.
Qed.

Lemma sentiment_labels_witness :
  exists r, NewsParserV2.analyze_symbol_sentiment [mildly_positive] = Some r /\
            overall_sentiment r = "Slightly Bullish"%string.
Proof.
  destruct (sentiment_labels [mildly_positive]) as (_ & Hsym & _).
  eexists. split; [reflexivity |].
  refine (proj1 (proj2 (Hsym _ eq_refl)) _).
  vm_compute. split; [reflexivity | discriminate].
Defined.

(** On a single article scoring 1/7 the basic aggregator says Bullish,
    where the specification asks for Slightly Bullish. *)
Lemma basic_aggregator_skips_slightly_bullish :
  let r := NewsParserV1.get_market_sentiment [mildly_positive] in
  sentiment_score r == 1 # 7 /\
  overall_sentiment r = "Bullish"%string /\
  spec_label (sentiment_score r) = "Slightly Bullish"%string /\
  overall_sentiment r <> spec_label (sentiment_score r).
Proof.
  cbv zeta. repeat split; try (vm_compute; reflexivity).
  vm_compute. discriminate.
Qed.

(** ** A remark on the momentum scorer *)

(** A frame shorter than the weekly look-back of 168 bars makes the
    momentum scorer fall back to 50; [analyze_symbol] asks the exchange
    for 100 bars. *)
Remark momentum_score_short_frame df :
  (length df < 168)%nat -> IntelligentTraderV2._calculate_momentum_score df = 50.
Proof.
  intros Hlen. unfold IntelligentTraderV2._calculate_momentum_score,
    IntelligentTraderV2.momentum_score_of.
  assert (E : Py.iloc_neg 168 (map close df) = None).
  { unfold Py.iloc_neg. rewrite length_map.
    destruct (168 <=? length df)%nat eqn:E; [| reflexivity].
    apply Nat.leb_le in E. lia. }
  destruct (Py.iloc_neg 1 (map close df)); [| reflexivity].
  destruct (Py.iloc_neg 24 (map close df)); [| reflexivity].
  cbn [mbind option_bind]. rewrite E. reflexivity.
Qed.

(** * Part III: further properties of the code *)

(** ** Sums *)




Lemma len_cons {A : Type} (x : A) (l : list A) : len (x :: l) == 1 + len l.
Proof.
  unfold len. cbn [length]. rewrite Nat2Z.inj_succ, <- Z.add_1_l, inject_Z_plus.
  reflexivity.
Qed.

Lemma len_nonneg {A : Type} (l : list A) : 0 <= len l.
Proof.
  unfold len. change 0 with (inject_Z 0). rewrite <- Zle_Qle. lia.
Qed.


(** ** The trade records of a reachable history *)

Section TradeFacts.

Import TradingHistory.

Lemma close_record_ok now exit_price fees trade :
  trade_ok (fst (close_record now exit_price fees trade)).
Proof.
  right. unfold close_record.
  destruct (Qeq_bool _ 0); cbn; repeat split; discriminate.
Qed.

Lemma close_first_ok now trade_id exit_price fees ts :
  Forall trade_ok ts ->
  Forall trade_ok (fst (close_first now trade_id exit_price fees ts)).
Proof.
  induction 1 as [| trade rest Htrade Hrest IH]; simpl; [constructor |].
  destruct (_ && _).
  - pose proof (close_record_ok now exit_price fees trade) as H.
    destruct (close_record now exit_price fees trade) as [trade' ok].
    constructor; assumption.
  - destruct (close_first now trade_id exit_price fees rest) as [rest' found].
    constructor; assumption.
Qed.

Lemma close_first_none now trade_id exit_price fees ts :
  snd (close_first now trade_id exit_price fees ts) = None ->
  fst (close_first now trade_id exit_price fees ts) = ts.
Proof.
  induction ts as [| trade rest IH]; simpl; [reflexivity |].
  destruct (_ && _).
  - destruct (close_record now exit_price fees trade). discriminate.
  - destruct (close_first now trade_id exit_price fees rest) as [rest' found].
    cbn in *. intros H. rewrite (IH H). reflexivity.
Qed.

Lemma close_trade_trades now trade_id exit_price fees h :
  trades (snd (close_trade now trade_id exit_price fees h))
  = fst (close_first now trade_id exit_price fees (trades h)).
Proof.
  unfold close_trade.
  pose proof (close_first_none now trade_id exit_price fees (trades h)) as Hnone.
  destruct (close_first _ _ _ _ _) as [ts [[symbol []] |]]; cbn in *;
    try reflexivity.
  symmetry. apply Hnone. reflexivity.
Qed.

Lemma step_trades_ok h h' :
  step h h' -> Forall trade_ok (trades h) -> Forall trade_ok (trades h').
Proof.
  intros Hstep Hok. destruct Hstep.
  - unfold add_trade. cbn [snd].
    assert (Hnew : Forall trade_ok
              (trades h ++
               [{| TradeRecord.trade_id :=
                     (symbol ++ "_" ++ action ++ "_" ++ Py.str (Py.int now))%string;
                   TradeRecord.symbol := symbol; TradeRecord.action := action;
                   TradeRecord.entry_time := now;
                   TradeRecord.entry_price := entry_price;
                   TradeRecord.quantity := quantity;
                   TradeRecord.exit_time := None; TradeRecord.exit_price := None;
                   TradeRecord.profit_loss := None; TradeRecord.profit_pct := None;
                   TradeRecord.status := "OPEN";
                   TradeRecord.confidence := confidence0;
                   TradeRecord.reasoning := reasoning;
                   TradeRecord.exchange := exchange; TradeRecord.fees := 0;
                   TradeRecord.demo_mode := demo_mode |}])).
    { apply Forall_app. split; [exact Hok |].
      constructor; [| constructor]. left. cbn. repeat split. }
    destruct (String.eqb action "BUY"); exact Hnew.
  - rewrite close_trade_trades. apply close_first_ok, Hok.
  - exact Hok.
  - exact Hok.
  - unfold update_position_prices.
    destruct (reprice_all _ _) as [ps ok]. exact Hok.
  - cbn. apply List.Forall_forall. intros trade Hin.
    apply List.filter_In in Hin as [Hin _].
    rewrite List.Forall_forall in Hok. apply Hok, Hin.
Qed.

(** X1.  In every reachable history each trade record is either OPEN
    with no exit time, exit price or profit, or CLOSED with its exit
    time, exit price and profit set; no other status ever appears. *)
Theorem reachable_trades_ok h : reachable h -> Forall trade_ok (trades h).
Proof.
  induction 1 as [| h h' Hreach IH Hstep].
  - constructor.
  - eapply step_trades_ok; eauto.
Qed.

End TradeFacts.

Lemma reachable_trades_ok_witness :
  TradingHistory.reachable btc_twice /\ Forall trade_ok (TradingHistory.trades btc_twice).
Proof.
  assert (H : TradingHistory.reachable btc_twice).
  { eapply TradingHistory.reachable_step; [exact btc_once_reachable |].
    apply TradingHistory.step_add_trade. }
  split; [exact H | exact (reachable_trades_ok btc_twice H)].
Defined.

Section CloseFacts.

Import TradingHistory.

Lemma matches_spec trade_id trade :
  String.eqb (TradeRecord.trade_id trade) trade_id
  && String.eqb (TradeRecord.status trade) "OPEN" = true
  <-> matches trade_id trade.
Proof.
  unfold matches. rewrite andb_true_iff, !String.eqb_eq. reflexivity.
Qed.

(** The loop of [close_trade] rewrites the first matching record and
    nothing else. *)
Lemma close_first_some now trade_id exit_price fees ts ts' symbol ok :
  close_first now trade_id exit_price fees ts = (ts', Some (symbol, ok)) ->
  exists pre trade post,
    ts = pre ++ trade :: post /\
    Forall (fun t => ~ matches trade_id t) pre /\
    matches trade_id trade /\
    ts' = pre ++ fst (close_record now exit_price fees trade) :: post /\
    symbol = TradeRecord.symbol trade /\
    ok = snd (close_record now exit_price fees trade).
Proof.
  revert ts'. induction ts as [| trade rest IH]; intros ts'; simpl; [discriminate |].
  destruct (_ && _) eqn:E.
  - apply matches_spec in E.
    destruct (close_record now exit_price fees trade) as [trade' ok'] eqn:Er.
    intros H. injection H as <- <- <-.
    exists [], trade, rest. rewrite Er. repeat split; try constructor; apply E.
  - destruct (close_first now trade_id exit_price fees rest) as [rest' found].
    intros H. injection H as <- ->.
    destruct (IH rest' eq_refl) as (pre & tr & post & -> & Hpre & Hm & -> & Hs & Hok).
    exists (trade :: pre), tr, post. repeat split; try assumption; try apply Hm.
    constructor; [| exact Hpre].
    intros Hmatch. apply matches_spec in Hmatch. congruence.
Qed.

Lemma close_first_none_iff now trade_id exit_price fees ts :
  snd (close_first now trade_id exit_price fees ts) = None <->
  Forall (fun t => ~ matches trade_id t) ts.
Proof.
  induction ts as [| trade rest IH]; simpl.
  - split; [constructor | reflexivity].
  - destruct (_ && _) eqn:E.
    + apply matches_spec in E.
      destruct (close_record now exit_price fees trade). cbn.
      split; [discriminate |]. intros H. inversion H; subst. contradiction.
    + destruct (close_first now trade_id exit_price fees rest) as [rest' found].
      cbn in *. rewrite IH. split.
      * intros H. constructor; [| exact H].
        intros Hm. apply matches_spec in Hm. congruence.
      * intros H. inversion H; assumption.
Qed.

Lemma close_record_status now exit_price fees trade :
  TradeRecord.status (fst (close_record now exit_price fees trade)) = "CLOSED"%string.
Proof. unfold close_record. destruct (Qeq_bool _ 0); reflexivity. Qed.

Lemma close_record_ok_iff now exit_price fees trade :
  snd (close_record now exit_price fees trade) = true <->
  ~ TradeRecord.entry_price trade * TradeRecord.quantity trade == 0.
Proof.
  unfold close_record. cbn.
  destruct (Qeq_bool _ 0) eqn:E; cbn.
  - apply Qeq_bool_eq in E. split; [discriminate | contradiction].
  - apply Qeq_bool_neq in E. split; [intros _; exact E | reflexivity].
Qed.

Lemma open_filter_app (l1 l2 : list TradeRecord.t) :
  List.filter (fun trade => String.eqb (TradeRecord.status trade) "OPEN") (l1 ++ l2)
  = List.filter (fun trade => String.eqb (TradeRecord.status trade) "OPEN") l1 ++
    List.filter (fun trade => String.eqb (TradeRecord.status trade) "OPEN") l2.
Proof. apply List.filter_app. Qed.

(** X2.  [close_trade] returns [False] exactly when no OPEN trade has
    the id, and then changes nothing.  Otherwise it rewrites the first
    such trade, and only that one, into a CLOSED record: when the traded
    value is not zero it returns [True] and drops the positions of the
    trade's symbol; when it is zero the division raises, the record
    stays CLOSED and the positions stay as they were.  Either way there
    is one OPEN trade fewer. *)
Theorem close_trade_effect now trade_id exit_price fees h :
  let r := close_trade now trade_id exit_price fees h in
  (Forall (fun t => ~ matches trade_id t) (trades h) ->
   r = (Ret false, h)) /\
  (~ Forall (fun t => ~ matches trade_id t) (trades h) ->
   exists pre trade post,
     trades h = pre ++ trade :: post /\
     Forall (fun t => ~ matches trade_id t) pre /\
     matches trade_id trade /\
     trades (snd r) = pre ++ fst (close_record now exit_price fees trade) :: post /\
     TradeRecord.status (fst (close_record now exit_price fees trade)) = "CLOSED"%string /\
     S (length (get_open_trades (snd r))) = length (get_open_trades h) /\
     (~ TradeRecord.entry_price trade * TradeRecord.quantity trade == 0 ->
      fst r = Ret true /\
      positions (snd r) = without (TradeRecord.symbol trade) (positions h)) /\
     (TradeRecord.entry_price trade * TradeRecord.quantity trade == 0 ->
      fst r = Raise zero_division /\ positions (snd r) = positions h)).
Proof.
  cbv zeta. split.
  - intros Hnone. apply close_first_none_iff with (now := now)
      (exit_price := exit_price) (fees := fees) in Hnone.
    unfold close_trade.
    destruct (close_first _ _ _ _ _) as [ts found]. cbn in Hnone. subst found.
    reflexivity.
  - intros Hsome.
    rewrite <- (close_first_none_iff now trade_id exit_price fees) in Hsome.
    unfold close_trade.
    destruct (close_first now trade_id exit_price fees (trades h))
      as [ts [[symbol ok] |]] eqn:E; [| cbn in Hsome; congruence].
    destruct (close_first_some _ _ _ _ _ _ _ _ E)
      as (pre & trade & post & Hts & Hpre & Hm & -> & -> & ->).
    exists pre, trade, post.
    pose proof (close_record_status now exit_price fees trade) as Hst.
    pose proof (close_record_ok_iff now exit_price fees trade) as Hok.
    assert (Hcount :
      S (length (List.filter
                   (fun t => String.eqb (TradeRecord.status t) "OPEN")
                   (pre ++ fst (close_record now exit_price fees trade) :: post)))
      = length (get_open_trades h)).
    { unfold get_open_trades. rewrite Hts, !open_filter_app, !length_app.
      cbn [List.filter]. rewrite Hst. destruct Hm as [_ Hopen]. rewrite Hopen.
      cbn. lia. }
    destruct (snd (close_record now exit_price fees trade)) eqn:Eok.
    + cbn [fst snd]. unfold get_open_trades, remove_position. cbn [trades positions].
      split; [exact Hts |]. split; [exact Hpre |]. split; [exact Hm |].
      split; [reflexivity |]. split; [exact Hst |]. split; [exact Hcount |].
      split.
      * intros _. split; reflexivity.
      * intros Hzero. exfalso. apply (proj1 Hok); [reflexivity | exact Hzero].
    + cbn [fst snd]. unfold get_open_trades. cbn [trades positions].
      split; [exact Hts |]. split; [exact Hpre |]. split; [exact Hm |].
      split; [reflexivity |]. split; [exact Hst |]. split; [exact Hcount |].
      split.
      * intros Hnz. apply Hok in Hnz. discriminate.
      * intros _. split; reflexivity.
Qed.

Lemma close_trade_effect_witness :
  fst (close_trade 120 "BTCUSDT_BUY_0" 110 0 btc_twice) = Ret true /\
  map TradeRecord.status (trades (snd (close_trade 120 "BTCUSDT_BUY_0" 110 0 btc_twice)))
  = ["CLOSED"; "OPEN"]%string /\
  close_trade 120 "ETHUSDT_BUY_0" 110 0 btc_twice = (Ret false, btc_twice).
Proof.
  destruct (close_trade_effect 120 "BTCUSDT_BUY_0" 110 0 btc_twice) as [_ Hhit].
  destruct (close_trade_effect 120 "ETHUSDT_BUY_0" 110 0 btc_twice) as [Hmiss _].
  split; [| split].
  - destruct Hhit as (pre & trade & post & _ & _ & _ & _ & _ & _ & _ & _).
    + intros H. inversion H as [| ? ? Hhead _]. apply Hhead. split; reflexivity.
    + vm_compute. reflexivity.
  - vm_compute. reflexivity.
  - apply Hmiss. repeat constructor; intros [Hid _]; vm_compute in Hid; discriminate.
Defined.

End CloseFacts.

(** ** The profit fields of a position *)

Section PnlFacts.

Import TradingHistory.

Lemma reprice_pnl_ok price p : pnl_ok (fst (reprice price p)).
Proof.
  unfold reprice, pnl_ok.
  destruct (Qeq_bool _ 0) eqn:E; cbn.
  - apply Qeq_bool_eq in E. split; [reflexivity |]. intros H. contradiction.
  - split; reflexivity.
Qed.

Lemma reprice_all_pnl_ok price_updates ps :
  Forall pnl_ok ps -> Forall pnl_ok (fst (reprice_all price_updates ps)).
Proof.
  induction 1 as [| p rest Hp Hrest IH]; simpl; [constructor |].
  destruct (price_updates !! Position.symbol p) as [price |].
  - pose proof (reprice_pnl_ok price p) as Hp'.
    destruct (reprice price p) as [p' []]; cbn in Hp'.
    + destruct (reprice_all price_updates rest) as [rest' ok'].
      constructor; assumption.
    + constructor; assumption.
  - destruct (reprice_all price_updates rest) as [rest' ok'].
    constructor; assumption.
Qed.

Lemma without_Forall (P : Position.t -> Prop) symbol ps :
  Forall P ps -> Forall P (without symbol ps).
Proof.
  intros H. apply List.Forall_forall. intros p Hin.
  apply List.filter_In in Hin as [Hin _].
  rewrite List.Forall_forall in H. apply H, Hin.
Qed.

Lemma add_position_pnl_ok now symbol side quantity entry_price exchange h :
  Forall pnl_ok (positions h) ->
  Forall pnl_ok (positions (add_position now symbol side quantity entry_price exchange h)).
Proof.
  intros H. unfold add_position. cbn [positions].
  apply Forall_app. split; [apply without_Forall, H |].
  constructor; [| constructor]. unfold pnl_ok. cbn.
  split; [destruct (String.eqb side "LONG"); ring |].
  intros _. unfold Qdiv. ring.
Qed.

Lemma step_pnl_ok h h' :
  step h h' -> Forall pnl_ok (positions h) -> Forall pnl_ok (positions h').
Proof.
  intros Hstep Hok. destruct Hstep.
  - unfold add_trade. cbn [snd]. destruct (String.eqb action "BUY").
    + apply add_position_pnl_ok. exact Hok.
    + exact Hok.
  - unfold close_trade.
    destruct (close_first _ _ _ _ _) as [ts [[symbol []] |]]; cbn; try exact Hok.
    apply without_Forall, Hok.
  - apply add_position_pnl_ok, Hok.
  - apply without_Forall, Hok.
  - unfold update_position_prices.
    pose proof (reprice_all_pnl_ok price_updates (positions h) Hok) as H.
    destruct (reprice_all _ _) as [ps ok]. exact H.
  - constructor.
Qed.

(** X3.  In every reachable history the unrealized profit of each
    position is the price difference times the quantity (entry minus
    current for a side other than LONG), and its percentage is that
    profit over the entry value, whenever the entry value is not
    zero. *)
Theorem reachable_pnl_ok h : reachable h -> Forall pnl_ok (positions h).
Proof.
  induction 1 as [| h h' Hreach IH Hstep].
  - constructor.
  - eapply step_pnl_ok; eauto.
Qed.

Lemma reachable_pnl_ok_witness :
  reachable (long_priced 0 "BTCUSDT" 100 2 116) /\
  Forall pnl_ok (positions (long_priced 0 "BTCUSDT" 100 2 116)).
Proof.
  assert (H : reachable (long_priced 0 "BTCUSDT" 100 2 116)).
  { unfold long_priced, long_entry.
    eapply reachable_step; [| apply step_update_position_prices].
    eapply reachable_step; [apply reachable_init | apply step_add_trade]. }
  split; [exact H | exact (reachable_pnl_ok _ H)].
Defined.

(** The loop of [update_position_prices] stops early exactly when it
    meets a position with a new price and a zero entry value. *)
Lemma reprice_all_raises_iff price_updates ps :
  snd (reprice_all price_updates ps) = false <->
  Exists (fun p => price_updates !! Position.symbol p <> None /\
                   Position.entry_price p * Position.quantity p == 0) ps.
Proof.
  induction ps as [| p rest IH]; simpl.
  - split; [discriminate | intros H; inversion H].
  - destruct (price_updates !! Position.symbol p) as [price |] eqn:Hin.
    + unfold reprice. cbn.
      destruct (Qeq_bool (Position.entry_price p * Position.quantity p) 0) eqn:E.
      * apply Qeq_bool_eq in E. cbn. split; [| reflexivity].
        intros _. left. split; [rewrite Hin; discriminate | exact E].
      * apply Qeq_bool_neq in E.
        destruct (reprice_all price_updates rest) as [rest' ok']. cbn in *.
        rewrite IH. split.
        -- intros H. right. exact H.
        -- intros H. inversion H as [? ? [_ Hz] | ? ? Hrest]; subst;
             [contradiction | exact Hrest].
    + destruct (reprice_all price_updates rest) as [rest' ok']. cbn in *.
      rewrite IH. split.
      * intros H. right. exact H.
      * intros H. inversion H as [? ? [Hn _] | ? ? Hrest]; subst;
          [congruence | exact Hrest].
Qed.

Lemma reprice_all_priced price_updates ps :
  snd (reprice_all price_updates ps) = true ->
  Forall2 (fun p p' =>
             forall price, price_updates !! Position.symbol p = Some price ->
                           Position.current_price p' = price)
          ps (fst (reprice_all price_updates ps)).
Proof.
  induction ps as [| p rest IH]; simpl; [constructor |].
  destruct (price_updates !! Position.symbol p) as [price |] eqn:Hin.
  - unfold reprice. cbn.
    destruct (Qeq_bool (Position.entry_price p * Position.quantity p) 0);
      [discriminate |].
    destruct (reprice_all price_updates rest) as [rest' ok']. cbn in *.
    intros Hok. constructor; [| exact (IH Hok)].
    intros price' H. rewrite Hin in H. injection H as <-. reflexivity.
  - destruct (reprice_all price_updates rest) as [rest' ok']. cbn in *.
    intros Hok. constructor; [| exact (IH Hok)].
    intros price' H. rewrite Hin in H. discriminate.
Qed.

(** X4.  [update_position_prices] raises exactly when some position
    with a new price has a zero entry value; when it returns, every
    position whose symbol is in the map carries the new price. *)
Theorem update_position_prices_effect (price_updates : gmap string Q) h :
  let r := update_position_prices price_updates h in
  (fst r = Raise zero_division <->
   Exists (fun p => price_updates !! Position.symbol p <> None /\
                    Position.entry_price p * Position.quantity p == 0)
          (positions h)) /\
  (fst r = Ret tt ->
   Forall2 (fun p p' =>
              forall price, price_updates !! Position.symbol p = Some price ->
                            Position.current_price p' = price)
           (positions h) (positions (snd r))).
Proof.
  cbv zeta. unfold update_position_prices.
  pose proof (reprice_all_raises_iff price_updates (positions h)) as Hraise.
  pose proof (reprice_all_priced price_updates (positions h)) as Hpriced.
  destruct (reprice_all price_updates (positions h)) as [ps []]; cbn in *.
  - split.
    + split; [discriminate |]. intros H. apply Hraise in H. discriminate.
    + intros _. apply Hpriced. reflexivity.
  - split.
    + split; [intros _; apply Hraise; reflexivity | reflexivity].
    + discriminate.
Qed.

Lemma update_position_prices_effect_witness :
  fst (update_position_prices {[ "BTCUSDT"%string := 116 ]} zero_quantity_entry)
  = Raise zero_division /\
  map Position.current_price
      (positions (snd (update_position_prices {[ "BTCUSDT"%string := 116 ]} btc_once)))
  = [116].
Proof.
  split.
  - apply (update_position_prices_effect {[ "BTCUSDT"%string := 116 ]} zero_quantity_entry).
    left. split; [vm_compute; discriminate | vm_compute; reflexivity].
  - vm_compute. reflexivity.
Defined.

(** X5.  [clear_demo_trades] returns the number of demo trades, keeps
    the other trades in their order, leaves no demo trade behind, and
    drops every position, those of the remaining trades included. *)
Theorem clear_demo_trades_effect h :
  let r := clear_demo_trades h in
  fst r = length (List.filter TradeRecord.demo_mode (trades h)) /\
  (fst r + length (trades (snd r)) = length (trades h))%nat /\
  trades (snd r)
  = List.filter (fun trade => negb (TradeRecord.demo_mode trade)) (trades h) /\
  Forall (fun trade => TradeRecord.demo_mode trade = false) (trades (snd r)) /\
  positions (snd r) = [].
Proof.
  cbv zeta. unfold clear_demo_trades. cbn [fst snd trades positions].
  split; [reflexivity |]. split; [| split; [reflexivity | split; [| reflexivity]]].
  - induction (trades h) as [| trade rest IH]; simpl; [reflexivity |].
    destruct (TradeRecord.demo_mode trade); simpl; lia.
  - apply List.Forall_forall. intros trade Hin.
    apply List.filter_In in Hin as [_ Hd]. apply negb_true_iff in Hd. exact Hd.
Qed.

End PnlFacts.

(** ** Reports *)

Section ReportFacts.

Import TradingHistory TradingHistoryReports.





Lemma slice_to_length {A : Type} n (l : list A) :
  (0 < n)%Z -> (Z.of_nat (length (Py.slice_to n l)) <= n)%Z.
Proof.
  intros Hn. unfold Py.slice_to.
  destruct (0 <=? n)%Z eqn:E; [| apply Z.leb_gt in E; lia].
  rewrite length_firstn. lia.
Qed.





(** *** Statistics *)







Lemma len_positive {A : Type} (x : A) (l : list A) : 0 < len (x :: l).
Proof. rewrite len_cons. pose proof (len_nonneg l). lra. Qed.



(** [get_trading_statistics] raises exactly when a closed trade of the
    window has no profit percentage, which is what a division by zero in
    [close_trade] leaves behind. *)
Lemma profit_pcts_none ts :
  profit_pcts_of ts = None <->
  Exists (fun trade => TradeRecord.profit_pct trade = None) ts.
Proof.
  induction ts as [| trade rest IH]; simpl.
  - split; [discriminate | intros H; inversion H].
  - destruct (TradeRecord.profit_pct trade) eqn:E.
    + destruct (profit_pcts_of rest).
      * split; [discriminate |]. intros H. inversion H; subst; [congruence |].
        apply IH in H1. discriminate.
      * split; [| reflexivity]. intros _. right. apply IH. reflexivity.
    + split; [| reflexivity]. intros _. left. exact E.
Qed.



End ReportFacts.

Section StatisticsRaise.

Import TradingHistory TradingHistoryReports.

Lemma exists_closed_filter (P : TradeRecord.t -> Prop) ts :
  Exists P (List.filter is_closed ts) <->
  Exists (fun trade => TradeRecord.status trade = "CLOSED"%string /\ P trade) ts.
Proof.
  rewrite !List.Exists_exists. split.
  - intros (trade & Hin & HP). apply List.filter_In in Hin as [Hin Hc].
    apply String.eqb_eq in Hc. eauto.
  - intros (trade & Hin & Hc & HP). exists trade. split; [| exact HP].
    apply List.filter_In. split; [exact Hin |]. apply String.eqb_eq. exact Hc.
Qed.

(** X9.  Over the whole history [get_trading_statistics] raises exactly
    when some CLOSED trade has no profit percentage: the record a
    division by zero in [close_trade] leaves behind. *)
Theorem get_trading_statistics_raises now h :
  get_trading_statistics now None h = Raise type_error <->
  Exists (fun trade => TradeRecord.status trade = "CLOSED"%string /\
                       TradeRecord.profit_pct trade = None)
         (trades h).
Proof.
  rewrite <- exists_closed_filter, <- profit_pcts_none.
  unfold get_trading_statistics.
  destruct (List.filter is_closed (trades h)) as [| trade rest] eqn:E.
  - cbn. split; discriminate.
  - destruct (profit_pcts_of (trade :: rest)) as [[| p ps] |] eqn:Eps.
    + split; discriminate.
    + split; discriminate.
    + split; reflexivity.
Qed.

Lemma get_trading_statistics_raises_witness :
  fst (close_trade 60 "BTCUSDT_BUY_0" 110 0 zero_quantity_entry) = Raise zero_division /\
  get_trading_statistics 120 None zero_quantity_closed = Raise type_error.
Proof.
  split; [vm_compute; reflexivity |].
  apply get_trading_statistics_raises. left. split; reflexivity.
Defined.

End StatisticsRaise.

(** ** Market overview *)

Section OverviewFacts.

Import MarketOverview.

Lemma len_as_length {A : Type} (l1 l2 : list A) :
  (length l1 <= length l2)%nat -> len l1 <= len l2.
Proof. intros H. unfold len. rewrite <- Zle_Qle. lia. Qed.

(** Gainers and losers are disjoint parts of the USDT pairs. *)
Lemma gainers_losers_disjoint (pairs : list ticker24) :
  (length (List.filter (fun t => Py.gt (change_of t) 0) pairs) +
   length (List.filter (fun t => Py.lt (change_of t) 0) pairs)
   <= length pairs)%nat.
Proof.
  induction pairs as [| t rest IH]; simpl; [lia |].
  destruct (Py.gt (change_of t) 0) eqn:Eg; destruct (Py.lt (change_of t) 0) eqn:El;
    simpl; try lia.
  apply gt_true in Eg. apply lt_true in El. lra.
Qed.

(** X10.  When [analyze_market_conditions] answers with statistics,
    there is at least one USDT pair, gainers and losers together do not
    exceed the pairs, the share of gainers is a percentage, and the
    market is called Bullish only with more gainers than losers and
    Bearish only with more losers than gainers. *)
Theorem analyze_market_conditions_sound tickers stats :
  analyze_market_conditions tickers = Market stats ->
  (1 <= ms_total_symbols stats)%nat /\
  (ms_gainers stats + ms_losers stats <= ms_total_symbols stats)%nat /\
  0 <= ms_gainers_pct stats <= 100 /\
  (ms_market_sentiment stats = "Bullish"%string ->
   (ms_losers stats < ms_gainers stats)%nat) /\
  (ms_market_sentiment stats = "Bearish"%string ->
   (ms_gainers stats < ms_losers stats)%nat).
Proof.
  unfold analyze_market_conditions.
  destruct tickers as [tickers |]; [| discriminate].
  destruct (List.filter _ tickers) as [| t rest] eqn:E; [discriminate |].
  assert (Hpos : 0 < len (t :: rest)) by apply len_positive.
  assert (Hone : (1 <= length (t :: rest))%nat) by (simpl; lia).
  remember (t :: rest) as pairs eqn:Hpairs. clear Hpairs E.
  pose proof (gainers_losers_disjoint pairs) as Hdisj.
  remember (List.filter (fun t => Py.gt (change_of t) 0) pairs) as gainers eqn:Eg.
  remember (List.filter (fun t => Py.lt (change_of t) 0) pairs) as losers eqn:El.
  clear Eg El.
  intros H. injection H as <-.
  cbn [ms_total_symbols ms_gainers ms_losers ms_gainers_pct ms_market_sentiment].
  pose proof (len_nonneg gainers) as Hg0.
  pose proof (len_nonneg losers) as Hl0.
  assert (Hg : len gainers <= len pairs) by (apply len_as_length; lia).
  split; [exact Hone |]. split; [exact Hdisj |]. split; [| split].
  - split.
    + apply Qmult_le_0_compat; [| lra].
      apply Qle_shift_div_l; [exact Hpos | rewrite Qmult_0_l; exact Hg0].
    + assert (len gainers / len pairs <= 1)
        by (apply Qle_shift_div_r; [exact Hpos | rewrite Qmult_1_l; exact Hg]).
      set (r := len gainers / len pairs) in *. clearbody r. lra.
  - destruct (Py.gt (len gainers) (len losers * 1.5)) eqn:E1.
    + intros _. apply gt_true in E1.
      assert (Hlt : len losers < len gainers) by lra.
      unfold len in Hlt. rewrite <- Zlt_Qlt in Hlt. lia.
    + destruct (Py.gt (len losers) (len gainers * 1.5)); discriminate.
  - destruct (Py.gt (len gainers) (len losers * 1.5)) eqn:E1; [discriminate |].
    destruct (Py.gt (len losers) (len gainers * 1.5)) eqn:E2; [| discriminate].
    intros _. apply gt_true in E2.
    assert (Hlt : len gainers < len losers) by lra.
    unfold len in Hlt. rewrite <- Zlt_Qlt in Hlt. lia.
Qed.

Lemma analyze_market_conditions_sound_witness :
  exists stats,
    analyze_market_conditions
      (Some [Ticker24 "BTCUSDT" (Some 2) (Some 1000);
             Ticker24 "ETHUSDT" (Some 1) (Some 500);
             Ticker24 "ETHBTC" (Some (-3)) (Some 10)]) = Market stats /\
    ms_market_sentiment stats = "Bullish"%string /\
    (ms_losers stats < ms_gainers stats)%nat.
Proof.
  destruct (analyze_market_conditions _) as [error | stats] eqn:E;
    [vm_compute in E; discriminate E |].
  exists stats. split; [reflexivity |].
  pose proof (analyze_market_conditions_sound _ _ E) as (_ & _ & _ & Hbull & _).
  assert (Hs : ms_market_sentiment stats = "Bullish"%string)
    by (vm_compute in E; injection E as <-; reflexivity).
  split; [exact Hs | exact (Hbull Hs)].
Defined.

(** The value of a label is 1, -1, or 0 for anything else. *)
Lemma sentiment_value_cases label :
  (label = "Bullish"%string /\ sentiment_value label = 1) \/
  (label = "Bearish"%string /\ sentiment_value label = -1) \/
  (~ directional label /\ sentiment_value label = 0).
Proof.
  unfold sentiment_value, directional.
  destruct (String.eqb_spec label "Bullish") as [-> | Hb]; [left; split; reflexivity |].
  destruct (String.eqb_spec label "Neutral") as [-> | Hn].
  { right. right. split; [| reflexivity]. intros [H | H]; discriminate. }
  destruct (String.eqb_spec label "Bearish") as [-> | Hr].
  { right. left. split; reflexivity. }
  right. right. split; [| reflexivity]. intros [H | H]; contradiction.
Qed.

(** X11.  [_combine_sentiments] answers Bullish exactly when the market
    is Bullish and the news are not Bearish, or the market has no
    direction and the news are Bullish; Bearish in the mirrored cases;
    it never answers anything but Bullish, Bearish or Neutral.  Any
    label other than Bullish and Bearish, such as "Slightly Bullish" or
    "Unknown", counts as no direction. *)
Theorem combine_sentiments_table market news :
  (_combine_sentiments market news = "Bullish"%string <->
   (market = "Bullish"%string /\ news <> "Bearish"%string) \/
   (~ directional market /\ news = "Bullish"%string)) /\
  (_combine_sentiments market news = "Bearish"%string <->
   (market = "Bearish"%string /\ news <> "Bullish"%string) \/
   (~ directional market /\ news = "Bearish"%string)) /\
  (_combine_sentiments market news = "Bullish"%string \/
   _combine_sentiments market news = "Bearish"%string \/
   _combine_sentiments market news = "Neutral"%string).
Proof.
  unfold _combine_sentiments.
  destruct (sentiment_value_cases market) as [[Hm ->] | [[Hm ->] | [Hm ->]]];
    destruct (sentiment_value_cases news) as [[Hn ->] | [[Hn ->] | [Hn ->]]];
    unfold directional in *;
    match goal with
    | |- context [Py.gt ?x ?y] =>
        let b := eval vm_compute in (Py.gt x y) in
        change (Py.gt x y) with b
    end;
    try match goal with
    | |- context [Py.lt ?x ?y] =>
        let b := eval vm_compute in (Py.lt x y) in
        change (Py.lt x y) with b
    end;
    cbv iota; subst;
    (split; [| split]);
    try (first [ left; reflexivity | right; left; reflexivity
               | right; right; reflexivity ]);
    (split;
     [ intros H; first [ discriminate H | left; split; [reflexivity | discriminate]
                       | left; split; [reflexivity | tauto]
                       | right; split; [tauto | reflexivity] ]
     | intros [[H1 H2] | [H1 H2]];
       first [ reflexivity | discriminate | exfalso; tauto | exfalso; congruence ] ]).
Qed.

Lemma market_confidence_bounds gainers_pct news_score volume :
  50 <= _calculate_market_confidence gainers_pct news_score volume <= 95.
Proof.
  unfold _calculate_market_confidence.
  assert (Habs : 0 <= Py.abs news_score).
  { unfold Py.abs. destruct (Qlt_le_dec news_score 0); lra. }
  assert (Hmin : 0 <= Py.min (Py.abs news_score * 20) 20 <= 20).
  { unfold Py.min. destruct (Qlt_le_dec 20 _); split; lra. }
  set (m := Py.min (Py.abs news_score * 20) 20) in *.
  unfold Py.min.
  repeat case_cmp;
    repeat match goal with |- context [Qlt_le_dec ?a ?b] => destruct (Qlt_le_dec a b) end;
    split; lra.
Qed.

(** X12.  [analyze_market_overview] answers "Unknown" with confidence 0
    whenever the market data is an error, which is when the exchange
    gives no list or no USDT pair, and only then; otherwise its
    sentiment is what [_combine_sentiments] makes of the market and the
    news labels, one of Bullish, Bearish and Neutral, and its confidence
    lies between 50 and 95, whatever the news parser reports. *)
Theorem analyze_market_overview_sound tickers news :
  let r := analyze_market_overview tickers news in
  (forall error, analyze_market_conditions tickers = MarketError error ->
     mc_sentiment r = "Unknown"%string /\ mc_confidence r = 0) /\
  (analyze_market_conditions tickers = MarketError "Unable to fetch market data"
   <-> tickers = None) /\
  (analyze_market_conditions tickers = MarketError "No USDT pairs found"
   <-> exists l, tickers = Some l /\
                 List.filter (fun t => Py.endswith "USDT" (t24_symbol t)) l = []) /\
  (mc_sentiment r = "Unknown"%string <->
   exists error, analyze_market_conditions tickers = MarketError error) /\
  (forall stats, analyze_market_conditions tickers = Market stats ->
     mc_sentiment r
     = _combine_sentiments (ms_market_sentiment stats) (overall_sentiment news) /\
     (mc_sentiment r = "Bullish"%string \/ mc_sentiment r = "Bearish"%string \/
      mc_sentiment r = "Neutral"%string) /\
     mc_confidence r
     = _calculate_market_confidence (ms_gainers_pct stats) (sentiment_score news)
         (ms_total_volume_usdt stats) /\
     50 <= mc_confidence r <= 95).
Proof.
  cbv zeta.
  assert (Hlabel : forall market label,
            _combine_sentiments market label = "Bullish"%string \/
            _combine_sentiments market label = "Bearish"%string \/
            _combine_sentiments market label = "Neutral"%string).
  { intros market label. unfold _combine_sentiments.
    destruct (Py.gt _ 0.3); [left; reflexivity |].
    destruct (Py.lt _ (-0.3)); [right; left | right; right]; reflexivity. }
  split; [| split; [| split]].
  - intros error E. unfold analyze_market_overview. rewrite E. split; reflexivity.
  - unfold analyze_market_conditions. destruct tickers as [l |].
    + destruct (List.filter _ l); split; intros H; discriminate H.
    + split; reflexivity.
  - unfold analyze_market_conditions. destruct tickers as [l |].
    + destruct (List.filter _ l) as [| t rest] eqn:E.
      * split; [intros _; exists l; split; [reflexivity | exact E] | reflexivity].
      * split; [intros H; discriminate H |].
        intros (l' & Hl & Hnone). injection Hl as <-.
        rewrite E in Hnone. discriminate Hnone.
    + split; [intros H; discriminate H |].
      intros (l & Hl & _). discriminate Hl.
  - unfold analyze_market_overview.
    destruct (analyze_market_conditions tickers) as [error | stats].
    + cbn [mc_sentiment mc_confidence].
      split; [split; [intros _; exists error; reflexivity | reflexivity] |].
      intros stats H. discriminate H.
    + cbn [mc_sentiment mc_confidence]. split.
      * split.
        -- intros H.
           destruct (Hlabel (ms_market_sentiment stats) (overall_sentiment news))
             as [E | [E | E]]; rewrite E in H; discriminate H.
        -- intros (error & H). discriminate H.
      * intros stats' H. injection H as <-.
        split; [reflexivity |]. split; [apply Hlabel |].
        split; [reflexivity | apply market_confidence_bounds].
Qed.

End OverviewFacts.

(** ** [analyze_symbol] *)

Section AnalyzeFacts.

(** Which branch of the 70/30 interpreter is taken. *)
Lemma interpret_analysis_score_v2_action fmt1 total_score t f s m :
  let r := IntelligentTraderV2._interpret_analysis_score fmt1 total_score t f s m in
  (70 <= total_score /\ fst (fst r) = "BUY"%string) \/
  (total_score <= 30 /\ fst (fst r) = "SELL"%string) \/
  (30 < total_score < 70 /\ fst (fst r) = "HOLD"%string).
Proof.
  cbv zeta. unfold IntelligentTraderV2._interpret_analysis_score.
  repeat case_cmp; simpl;
    [left | right; left | right; right]; (split; [lra | reflexivity]).
Qed.

(** A weighted sum of percentages under weights that are not negative
    and sum to 1 is a percentage. *)
Lemma weighted_score_bounds (w : IntelligentTraderV2.weights) t f s m :
  weights_ok w ->
  0 <= t <= 100 -> 0 <= f <= 100 -> 0 <= s <= 100 -> 0 <= m <= 100 ->
  0 <= t * w technical + f * w fundamental + s * w sentiment + m * w momentum
    <= 100.
Proof.
  intros [Hw Hsum] Ht Hf Hs Hm.
  rewrite total_unfold in Hsum.
  pose proof (Hw technical) as H1. pose proof (Hw fundamental) as H2.
  pose proof (Hw sentiment) as H3. pose proof (Hw momentum) as H4.
  set (a := w technical) in *. set (b := w fundamental) in *.
  set (c := w sentiment) in *. set (d := w momentum) in *.
  clearbody a b c d.
  assert (Hlo : forall x y, 0 <= x -> 0 <= y -> 0 <= x * y)
    by (intros; apply Qmult_le_0_compat; assumption).
  assert (Hhi : forall x y, x <= 100 -> 0 <= y -> x * y <= 100 * y)
    by (intros; apply Qmult_le_compat_r; assumption).
  pose proof (Hlo t a ltac:(lra) H1). pose proof (Hlo f b ltac:(lra) H2).
  pose proof (Hlo s c ltac:(lra) H3). pose proof (Hlo m d ltac:(lra) H4).
  pose proof (Hhi t a ltac:(lra) H1). pose proof (Hhi f b ltac:(lra) H2).
  pose proof (Hhi s c ltac:(lra) H3). pose proof (Hhi m d ltac:(lra) H4).
  set (ta := t * a) in *. set (fb := f * b) in *.
  set (sc := s * c) in *. set (md := m * d) in *.
  clearbody ta fb sc md. split; lra.
Qed.

Variable fmt1 : Q -> string.
Variable get_klines : string -> string -> Z -> klines.
Variable get_comprehensive_analysis : list bar -> option (gmap string value).
Variable get_symbol_news : string -> Z -> list news_item.
Variable get_market_sentiment : gmap string value.
Variable indicator_weights : IntelligentTraderV2.weights.

(** X13.  With weights that are not negative and sum to 1, an analysis
    that [analyze_symbol] returns comes from at least 50 rows of the
    exchange, carries the symbol asked for, has its four category scores
    and its total score between 0 and 100, and is BUY from a total of 70
    up, SELL up to 30 (both with a confidence between 70 and 95) and
    HOLD in between, where the confidence lies above 60 and can reach
    100.  When the exchange honours the limit of 100 rows the momentum
    score is 50. *)
Theorem analyze_symbol_sound symbol a :
  weights_ok indicator_weights ->
  AnalyzeSymbol.analyze_symbol fmt1 get_klines get_comprehensive_analysis
    get_symbol_news get_market_sentiment indicator_weights symbol = Some a ->
  (exists df, get_klines symbol "1h" 100%Z = Klines df /\
              (50 <= length df)%nat /\
              ((length df <= 100)%nat -> an_momentum_score a = 50)) /\
  an_symbol a = symbol /\
  0 <= an_technical_score a <= 100 /\
  0 <= an_fundamental_score a <= 100 /\
  0 <= an_sentiment_score a <= 100 /\
  0 <= an_momentum_score a <= 100 /\
  0 <= an_total_score a <= 100 /\
  ((an_action a = "BUY"%string /\ 70 <= an_total_score a /\
    70 <= an_confidence a <= 95) \/
   (an_action a = "SELL"%string /\ an_total_score a <= 30 /\
    70 <= an_confidence a <= 95) \/
   (an_action a = "HOLD"%string /\ 30 < an_total_score a < 70 /\
    60 < an_confidence a <= 100)).
Proof.
  intros Hw. unfold AnalyzeSymbol.analyze_symbol.
  destruct (get_klines symbol "1h" 100%Z) as [error | df]; [discriminate |].
  destruct df as [| row rows]; [discriminate |].
  set (df := row :: rows).
  destruct (length df <? 50)%nat eqn:Elen; [discriminate |].
  apply Nat.ltb_ge in Elen.
  pose proof (calculate_technical_score_bounded get_comprehensive_analysis df) as Ht.
  pose proof (calculate_fundamental_score_bounded symbol df) as Hf.
  pose proof (calculate_sentiment_score_bounded
                get_symbol_news get_market_sentiment symbol) as Hs.
  pose proof (calculate_momentum_score_bounded df) as Hm.
  pose proof (momentum_score_short_frame df) as Hshort.
  set (t := IntelligentTraderV2._calculate_technical_score _ df) in *.
  set (f := IntelligentTraderV2._calculate_fundamental_score symbol df) in *.
  set (s := IntelligentTraderV2._calculate_sentiment_score _ _ symbol) in *.
  set (m := IntelligentTraderV2._calculate_momentum_score df) in *.
  pose proof (weighted_score_bounds indicator_weights t f s m Hw Ht Hf Hs Hm) as Htot.
  set (total_score := t * indicator_weights technical + _ + _ + _) in *.
  pose proof (interpret_analysis_score_v2_action fmt1 total_score t f s m) as Hact.
  pose proof (interpret_analysis_score_v2_buy_sell fmt1 total_score t f s m) as Hcap.
  pose proof (interpret_analysis_score_v2_hold fmt1 total_score t f s m) as Hhold.
  cbv zeta in Hact, Hhold.
  destruct (IntelligentTraderV2._interpret_analysis_score fmt1 total_score t f s m)
    as [[action conf] reasoning].
  cbn [fst snd] in Hact, Hcap, Hhold.
  intros H. injection H as <-.
  cbn [an_symbol an_action an_confidence an_technical_score an_fundamental_score
       an_sentiment_score an_momentum_score an_total_score].
  split.
  { exists df. split; [reflexivity |]. split; [exact Elen |].
    intros Hle. apply Hshort. lia. }
  split; [reflexivity |].
  split; [exact Ht |]. split; [exact Hf |]. split; [exact Hs |].
  split; [exact Hm |]. split; [exact Htot |].
  destruct Hact as [[Hge Ha] | [[Hle Ha] | [Hmid Ha]]].
  - left. split; [exact Ha |]. split; [exact Hge |]. apply Hcap. right. exact Hge.
  - right. left. split; [exact Ha |]. split; [exact Hle |]. apply Hcap. left. exact Hle.
  - right. right. split; [exact Ha |]. split; [exact Hmid |].
    apply (Hhold Hmid).
Qed.

End AnalyzeFacts.

Lemma default_weights_ok : weights_ok IntelligentTraderV2.default_weights.
Proof.
  split; [intros []; vm_compute; discriminate | vm_compute; reflexivity].
Qed.

Lemma analyze_symbol_sound_witness :
  exists a,
    AnalyzeSymbol.analyze_symbol (fun _ => ""%string) (flat_klines 60)
      (fun _ => None) (fun _ _ => []) ∅ IntelligentTraderV2.default_weights
      "BTCUSDT" = Some a /\
    an_momentum_score a = 50 /\
    0 <= an_total_score a <= 100.
Proof.
  destruct (AnalyzeSymbol.analyze_symbol _ _ _ _ _ _ _) as [a |] eqn:E;
    [| vm_compute in E; discriminate E].
  exists a. split; [reflexivity |].
  pose proof (analyze_symbol_sound _ _ _ _ _ _ _ _ default_weights_ok E)
    as ((df & Hk & _ & Hmom) & _ & _ & _ & _ & _ & Htot & _).
  split; [| exact Htot].
  apply Hmom. unfold flat_klines in Hk. injection Hk as <-.
  unfold flat_series. rewrite length_map, length_seq. lia.
Defined.

(** ** The direction of a weight update *)

Section NudgeFacts.

Import IntelligentTraderV2.

(** Case analysis on the innermost comparison of a fold. *)
Ltac case_inner_cmp :=
  match goal with
  | |- context [Py.gt ?a ?b] =>
      lazymatch b with
      | context [Py.gt _ _] => fail
      | _ =>
          let E := fresh "E" in
          destruct (Py.gt a b) eqn:E;
          [apply gt_true in E | apply gt_false in E]
      end
  end.


(** On a tie the first category in dictionary order wins. *)
Lemma strongest_factor_tie (s : category -> Q) :
  (forall c, s c == s technical) -> strongest_factor s = technical.
Proof.
  intros H. unfold strongest_factor. cbn [fold_left].
  pose proof (H fundamental). pose proof (H sentiment). pose proof (H momentum).
  repeat case_inner_cmp; try reflexivity; lra.
Qed.




End NudgeFacts.


(** ** The notification manager *)

Section NotificationFacts.

Import NotificationManager.

Context {payload : Type}.

Implicit Types (m : t (payload := payload)) (l : list (notification payload)).

Lemma slice_to_nonneg {A : Type} n (l : list A) :
  (0 <= n)%Z -> Py.slice_to n l = firstn (Z.to_nat n) l.
Proof.
  intros Hn. unfold Py.slice_to.
  destruct (0 <=? n)%Z eqn:E; [reflexivity | apply Z.leb_gt in E; lia].
Qed.

Lemma add_notification_max epoch now ty title message data priority m :
  max_notifications
    (snd (add_notification epoch now ty title message data priority m))
  = max_notifications m.
Proof. reflexivity. Qed.

(** With a limit that is not negative, [add_notification] keeps the new
    notification and the newest of the old ones, up to the limit. *)
Lemma add_notification_list epoch now ty title message data priority m :
  (0 <= max_notifications m)%Z ->
  notifications (snd (add_notification epoch now ty title message data priority m))
  = firstn (Z.to_nat (max_notifications m))
      (Notification (fst (add_notification epoch now ty title message data priority m))
                    ty title message now false data priority
       :: notifications m).
Proof.
  intros Hmax. unfold add_notification. cbn [fst snd notifications].
  set (n := Notification _ ty title message now false data priority).
  destruct (max_notifications m <? _)%Z eqn:E.
  - apply slice_to_nonneg, Hmax.
  - apply Z.ltb_ge in E. symmetry. apply firstn_all2. lia.
Qed.

Lemma mark_first_length notification_id l :
  length (snd (mark_first notification_id l)) = length l.
Proof.
  induction l as [| n rest IH]; [reflexivity |].
  cbn [mark_first]. destruct (String.eqb _ _); [reflexivity |].
  destruct (mark_first notification_id rest) as [found rest'].
  cbn [snd length] in *. congruence.
Qed.

Lemma mark_as_read_notifications notification_id m :
  notifications (snd (mark_as_read notification_id m))
  = snd (mark_first notification_id (notifications m)).
Proof.
  unfold mark_as_read.
  destruct (mark_first notification_id (notifications m)); reflexivity.
Qed.

Lemma mark_as_read_max notification_id m :
  max_notifications (snd (mark_as_read notification_id m)) = max_notifications m.
Proof.
  unfold mark_as_read.
  destruct (mark_first notification_id (notifications m)); reflexivity.
Qed.

Lemma clear_old_notifications_shrinks now days m :
  max_notifications (snd (clear_old_notifications now days m)) = max_notifications m /\
  (length (notifications (snd (clear_old_notifications now days m)))
   <= length (notifications m))%nat.
Proof.
  unfold clear_old_notifications.
  destruct (Datetime.replace_day _ _); cbn [snd notifications max_notifications].
  - split; [reflexivity | apply List.filter_length_le].
  - split; [reflexivity | lia].
Qed.

Lemma step_bounded m m' :
  step m m' ->
  (0 <= max_notifications m)%Z ->
  (Z.of_nat (length (notifications m)) <= max_notifications m)%Z ->
  max_notifications m' = max_notifications m /\
  (Z.of_nat (length (notifications m')) <= max_notifications m')%Z.
Proof.
  intros Hstep Hmax Hlen. destruct Hstep.
  - rewrite add_notification_max. split; [reflexivity |].
    rewrite add_notification_list by exact Hmax.
    rewrite length_firstn. lia.
  - rewrite mark_as_read_max, mark_as_read_notifications, mark_first_length.
    split; [reflexivity | exact Hlen].
  - cbn [mark_all_as_read snd notifications max_notifications].
    rewrite length_map. split; [reflexivity | exact Hlen].
  - destruct (clear_old_notifications_shrinks now days m) as [-> Hle].
    split; [reflexivity | lia].
Qed.

(** X15.  A manager created with a limit that is not negative never
    holds more notifications than the limit, whatever is added, marked
    or cleared afterwards. *)
Theorem notifications_bounded max m :
  (0 <= max)%Z ->
  reachable max m ->
  max_notifications m = max /\
  (Z.of_nat (length (notifications m)) <= max)%Z.
Proof.
  intros Hmax Hreach. induction Hreach as [| m m' Hreach [IHmax IHlen] Hstep].
  - split; [reflexivity | cbn; lia].
  - destruct (step_bounded m m' Hstep) as [Hm Hl]; [lia | lia |].
    split; [congruence | rewrite <- IHmax, <- Hm; exact Hl].
Qed.

Lemma add_notification_head epoch now ty title message data priority m :
  (1 <= max_notifications m)%Z ->
  notifications (snd (add_notification epoch now ty title message data priority m))
  = Notification (fst (add_notification epoch now ty title message data priority m))
                 ty title message now false data priority
    :: firstn (Z.to_nat (max_notifications m) - 1) (notifications m).
Proof.
  intros Hmax.
  assert (Hlist := add_notification_list epoch now ty title message data priority m
                     ltac:(lia)).
  assert (E : Z.to_nat (max_notifications m)
              = S (Z.to_nat (max_notifications m) - 1)) by lia.
  rewrite E in Hlist at 1. cbn [firstn] in Hlist. exact Hlist.
Qed.

(** X16.  [add_notification] on a manager with a limit of at least 1
    puts the new, unread notification first, returns its id, and keeps
    the old notifications in their order, dropping only the oldest ones
    that no longer fit. *)
Theorem add_notification_effect epoch now ty title message data priority m :
  (1 <= max_notifications m)%Z ->
  let r := add_notification epoch now ty title message data priority m in
  fst r = (value ty ++ "_" ++ Py.str (Py.int epoch))%string /\
  notifications (snd r)
  = Notification (fst r) ty title message now false data priority
    :: firstn (Z.to_nat (max_notifications m) - 1) (notifications m) /\
  (1 <= get_unread_count (snd r))%nat.
Proof.
  intros Hmax. cbv zeta.
  assert (Hlist := add_notification_head epoch now ty title message data priority m
                     Hmax).
  split; [reflexivity |]. split; [exact Hlist |].
  unfold get_unread_count. rewrite Hlist. cbn. lia.
Qed.

Lemma filter_unread_marked l :
  List.filter (fun n => negb (n_read n))
              (map (fun n => if n_read n then n else mark n) l) = [].
Proof.
  induction l as [| n rest IH]; [reflexivity |].
  cbn [map List.filter].
  destruct (n_read n) eqn:E; cbn [mark n_read negb]; [rewrite E |]; exact IH.
Qed.

(** X17.  [mark_all_as_read] returns the number of unread notifications
    and leaves none unread; the notifications keep their number, order
    and ids, and a second call returns 0. *)
Theorem mark_all_as_read_effect m :
  let r := mark_all_as_read m in
  fst r = get_unread_count m /\
  get_unread_count (snd r) = 0%nat /\
  Forall (fun n => n_read n = true) (notifications (snd r)) /\
  map n_id (notifications (snd r)) = map n_id (notifications m) /\
  max_notifications (snd r) = max_notifications m /\
  fst (mark_all_as_read (snd r)) = 0%nat.
Proof.
  cbv zeta. unfold mark_all_as_read, get_unread_count.
  cbn [fst snd notifications max_notifications].
  pose proof (filter_unread_marked (notifications m)) as Hnone.
  split; [reflexivity |]. rewrite Hnone.
  split; [reflexivity |]. split; [| split; [| split; reflexivity]].
  - apply List.Forall_forall. intros n Hn. apply in_map_iff in Hn.
    destruct Hn as (n0 & <- & _). destruct (n_read n0) eqn:E; [exact E | reflexivity].
  - rewrite map_map. apply map_ext. intros n. destruct (n_read n); reflexivity.
Qed.

Lemma mark_first_spec notification_id l :
  (fst (mark_first notification_id l) = false /\
   Forall (fun n => n_id n <> notification_id) l /\
   snd (mark_first notification_id l) = l) \/
  (fst (mark_first notification_id l) = true /\
   exists pre n post,
     l = pre ++ n :: post /\
     Forall (fun n => n_id n <> notification_id) pre /\
     n_id n = notification_id /\
     snd (mark_first notification_id l) = pre ++ mark n :: post).
Proof.
  induction l as [| n rest IH].
  - left. repeat split. constructor.
  - cbn [mark_first]. destruct (String.eqb_spec (n_id n) notification_id) as [E | E].
    + right. split; [reflexivity |]. exists [], n, rest.
      repeat split; [constructor | exact E].
    + destruct (mark_first notification_id rest) as [found rest'].
      cbn [fst snd] in *.
      destruct IH as [(-> & Hall & ->) | (-> & pre & n0 & post & -> & Hpre & Hid & ->)].
      * left. repeat split. constructor; assumption.
      * right. split; [reflexivity |]. exists (n :: pre), n0, post.
        repeat split; [constructor; assumption | exact Hid].
Qed.

(** X18.  [mark_as_read] returns [False] exactly when no notification
    has the id, and then changes nothing; otherwise it marks the first
    notification with the id, and only that one, also when another
    notification carries the same id. *)
Theorem mark_as_read_effect notification_id m :
  let r := mark_as_read notification_id m in
  (fst r = false <->
   Forall (fun n => n_id n <> notification_id) (notifications m)) /\
  (fst r = false -> snd r = m) /\
  (fst r = true ->
   exists pre n post,
     notifications m = pre ++ n :: post /\
     Forall (fun n => n_id n <> notification_id) pre /\
     n_id n = notification_id /\
     notifications (snd r) = pre ++ mark n :: post /\
     max_notifications (snd r) = max_notifications m).
Proof.
  cbv zeta. unfold mark_as_read.
  pose proof (mark_first_spec notification_id (notifications m)) as Hspec.
  destruct (mark_first notification_id (notifications m)) as [found l'].
  cbn [fst snd notifications max_notifications] in *.
  destruct Hspec as [(-> & Hall & ->) | (-> & pre & n & post & Hl & Hpre & Hid & ->)].
  - split; [tauto |]. split; [| discriminate].
    intros _. destruct m; reflexivity.
  - split; [| split; [discriminate |]].
    + split; [discriminate |]. intros Hall. exfalso.
      rewrite Hl in Hall. apply List.Forall_app in Hall as [_ Hall].
      inversion Hall; subst. contradiction.
    + intros _. exists pre, n, post. repeat split; assumption.
Qed.

End NotificationFacts.

Lemma notifications_bounded_witness :
  (Z.of_nat (length (NotificationManager.notifications
                       (snd (NotificationManager.add_notification (payload := unit)
                               5 march_3rd_noon SYSTEM_STATUS "a" "b" None "normal"
                               (NotificationManager.init 0))))) <= 0)%Z.
Proof.
  refine (proj2 (notifications_bounded 0 _ ltac:(lia) _)).
  eapply NotificationManager.reachable_step;
    [apply NotificationManager.reachable_init | apply NotificationManager.step_add].
Defined.

Lemma add_notification_effect_witness :
  (1 <= NotificationManager.get_unread_count
          (snd (NotificationManager.add_notification (payload := unit)
                  5 march_3rd_noon SYSTEM_STATUS "a" "b" None "normal"
                  two_notifications)))%nat.
Proof.
  refine (proj2 (proj2 (add_notification_effect _ _ _ _ _ _ _ _ _))).
  vm_compute. discriminate.
Defined.

(** ** Ids, clearing and listing of notifications *)

Section NotificationListFacts.

Import NotificationManager.

Context {payload : Type}.

Implicit Types (m : t (payload := payload)) (l : list (notification payload)).

(** Marking by id never reaches past the first notification with the
    id. *)
Lemma mark_as_read_times_head k notification_id (n older : notification payload) rest max :
  n_id n = notification_id ->
  exists n',
    n_id n' = notification_id /\
    mark_as_read_times k notification_id (Make (n :: older :: rest) max)
    = Make (n' :: older :: rest) max.
Proof.
  intros Hid. induction k as [| k (n' & Hid' & IH)].
  - exists n. split; [exact Hid | reflexivity].
  - exists (mark n'). split; [exact Hid' |].
    change (mark_as_read_times (S k) notification_id
              (Make (n :: older :: rest) max))
      with (snd (mark_as_read notification_id
                   (mark_as_read_times k notification_id
                      (Make (n :: older :: rest) max)))).
    rewrite IH. unfold mark_as_read. cbn [notifications mark_first max_notifications].
    rewrite Hid', String.eqb_refl. reflexivity.
Qed.

(** X19.  Two notifications of the same type added within the same
    second get the same id.  [mark_as_read] with that id then only ever
    reaches the newer one: however often it is called, the older one
    stays unread. *)
Theorem same_second_same_id
    epoch1 epoch2 now1 now2 ty title1 message1 data1 priority1
    title2 message2 data2 priority2 k m :
  (2 <= max_notifications m)%Z ->
  Py.int epoch1 = Py.int epoch2 ->
  let r1 := add_notification epoch1 now1 ty title1 message1 data1 priority1 m in
  let r2 := add_notification epoch2 now2 ty title2 message2 data2 priority2 (snd r1) in
  let m' := mark_as_read_times k (fst r2) (snd r2) in
  fst r1 = fst r2 /\
  nth_error (notifications m') 1
  = Some (Notification (fst r1) ty title1 message1 now1 false data1 priority1) /\
  (1 <= get_unread_count m')%nat.
Proof.
  intros Hmax Hepoch. cbv zeta.
  pose proof (add_notification_head epoch1 now1 ty title1 message1 data1
                priority1 m ltac:(lia)) as Hl1.
  set (r1 := add_notification epoch1 now1 ty title1 message1 data1 priority1 m) in *.
  assert (Hid1 : fst r1 = (value ty ++ "_" ++ Py.str (Py.int epoch1))%string)
    by reflexivity.
  assert (Hmax1 : max_notifications (snd r1) = max_notifications m) by reflexivity.
  assert (Hl2 := add_notification_list epoch2 now2 ty title2 message2 data2
                   priority2 (snd r1) ltac:(lia)).
  set (r2 := add_notification epoch2 now2 ty title2 message2 data2 priority2 (snd r1)) in *.
  assert (Hid2 : fst r2 = (value ty ++ "_" ++ Py.str (Py.int epoch2))%string)
    by reflexivity.
  assert (Hids : fst r1 = fst r2) by (rewrite Hid1, Hid2, Hepoch; reflexivity).
  split; [exact Hids |].
  rewrite Hl1, Hmax1 in Hl2.
  assert (E : Z.to_nat (max_notifications m)
              = S (S (Z.to_nat (max_notifications m) - 2))) by lia.
  rewrite E in Hl2. cbn [firstn] in Hl2.
  set (n1 := Notification (fst r1) ty title1 message1 now1 false data1 priority1) in *.
  set (n2 := Notification (fst r2) ty title2 message2 now2 false data2 priority2) in *.
  set (rest := firstn _ (firstn _ (notifications m))) in Hl2.
  assert (Hm2 : snd r2 = Make (n2 :: n1 :: rest) (max_notifications m)).
  { destruct (snd r2) as [l2 max2] eqn:E2. cbn [notifications] in Hl2.
    assert (Hmax2 : max2 = max_notifications m).
    { change max2 with (max_notifications (Make l2 max2)). rewrite <- E2. reflexivity. }
    congruence. }
  destruct (mark_as_read_times_head k (fst r2) n2 n1 rest (max_notifications m)
              eq_refl) as (n' & _ & Hk).
  rewrite Hm2, Hk. cbn [notifications nth_error].
  split; [reflexivity |].
  unfold get_unread_count. cbn [notifications List.filter].
  destruct (negb (n_read n')); cbn; lia.
Qed.

Lemma replace_day_spec day d :
  (Datetime.replace_day day d = Raise value_error /\
   ~ (1 <= day <= Datetime.days_in_month (dt_year d) (dt_month d))%Z) \/
  (Datetime.replace_day day d
   = Ret (Datetime (dt_year d) (dt_month d) day (dt_hour d) (dt_minute d)
                   (dt_second d) (dt_microsecond d)) /\
   (1 <= day <= Datetime.days_in_month (dt_year d) (dt_month d))%Z).
Proof.
  unfold Datetime.replace_day.
  destruct (1 <=? day)%Z eqn:E1; destruct (day <=? _)%Z eqn:E2; cbn [andb];
    try apply Z.leb_le in E1; try apply Z.leb_le in E2;
    try apply Z.leb_gt in E1; try apply Z.leb_gt in E2;
    [right; split; [reflexivity | lia] | left; split; [reflexivity | lia] ..].
Qed.

Lemma days_in_month_le_31 y mo : (Datetime.days_in_month y mo <= 31)%Z.
Proof.
  unfold Datetime.days_in_month.
  destruct (mo =? 2)%Z; [destruct (Datetime.is_leap y); lia |].
  destruct (_ || _)%bool; lia.
Qed.

(** X20.  [clear_old_notifications] raises [ValueError] and removes
    nothing exactly when the day of the month less [days] is not a day
    of the current month: with [days] not negative, whenever today's
    day of the month is at most [days].  When it returns, it has kept,
    in their order, exactly the notifications from the cutoff on,
    and the number it returns is the number it removed. *)
Theorem clear_old_notifications_effect now days m :
  let r := clear_old_notifications now days m in
  (fst r = Raise value_error <->
   ~ (1 <= dt_day now - days
      <= Datetime.days_in_month (dt_year now) (dt_month now))%Z) /\
  (dt_day now <= days -> fst r = Raise value_error)%Z /\
  (fst r = Raise value_error -> snd r = m) /\
  (forall removed, fst r = Ret removed ->
     notifications (snd r)
     = List.filter (fun n => Datetime.ge (n_timestamp n) (cutoff_of now days))
                   (notifications m) /\
     (removed + length (notifications (snd r)) = length (notifications m))%nat /\
     max_notifications (snd r) = max_notifications m).
Proof.
  cbv zeta. unfold clear_old_notifications.
  destruct (replace_day_spec (dt_day (Datetime.midnight now) - days)
              (Datetime.midnight now)) as [[-> Hout] | [-> Hin]];
    cbn [Datetime.midnight dt_year dt_month dt_day dt_hour dt_minute dt_second
         dt_microsecond] in *;
    cbn [fst snd notifications max_notifications].
  - split; [tauto |]. split; [reflexivity |]. split; [reflexivity |].
    discriminate.
  - split; [split; [discriminate | tauto] |].
    split; [intros Hle; lia |]. split; [discriminate |].
    intros removed H. injection H as <-.
    split; [reflexivity |]. split; [| reflexivity].
    pose proof (List.filter_length_le
                  (fun n => Datetime.ge (n_timestamp n) (cutoff_of now days))
                  (notifications m)) as Hle.
    unfold cutoff_of in *. lia.
Qed.

Lemma slice_to_sublist {A : Type} n (l : list A) : sublist (Py.slice_to n l) l.
Proof.
  unfold Py.slice_to.
  destruct (0 <=? n)%Z; apply sublist_take.
Qed.

Lemma filter_sublist {A : Type} (f : A -> bool) (l : list A) :
  sublist (List.filter f l) l.
Proof.
  induction l as [| x rest IH]; [constructor |].
  cbn [List.filter]. destruct (f x); [apply sublist_skip | apply sublist_cons]; exact IH.
Qed.

(** X21.  [get_notifications] returns notifications of the manager in
    their order; with [unread_only] only unread ones, and without a
    limit all [get_unread_count] of them; a positive limit bounds the
    length, while a limit of 0 is no limit at all. *)
Theorem get_notifications_effect limit unread_only m :
  sublist (get_notifications limit unread_only m) (notifications m) /\
  (unread_only = true ->
   Forall (fun n => n_read n = false) (get_notifications limit unread_only m)) /\
  length (get_notifications None true m) = get_unread_count m /\
  get_notifications (Some 0%Z) unread_only m = get_notifications None unread_only m /\
  (forall n, limit = Some n -> (0 < n)%Z ->
     (Z.of_nat (length (get_notifications limit unread_only m)) <= n)%Z).
Proof.
  unfold get_notifications, get_unread_count.
  set (l0 := if unread_only then _ else notifications m).
  assert (Hsub : sublist l0 (notifications m)).
  { subst l0. destruct unread_only; [apply filter_sublist | reflexivity]. }
  assert (Hunread : unread_only = true -> Forall (fun n => n_read n = false) l0).
  { intros ->. subst l0. apply List.Forall_forall. intros n Hn.
    apply List.filter_In in Hn as [_ Hn]. apply negb_true_iff in Hn. exact Hn. }
  split; [| split; [| split; [reflexivity | split; [reflexivity |]]]].
  - destruct limit as [n |]; [| exact Hsub].
    destruct (n =? 0)%Z; [exact Hsub |].
    etransitivity; [apply slice_to_sublist | exact Hsub].
  - intros Hu. specialize (Hunread Hu).
    destruct limit as [n |]; [| exact Hunread].
    destruct (n =? 0)%Z; [exact Hunread |].
    apply slice_to_Forall, Hunread.
  - intros n -> Hn. destruct (n =? 0)%Z eqn:E; [apply Z.eqb_eq in E; lia |].
    apply slice_to_length, Hn.
Qed.

End NotificationListFacts.

Lemma same_second_same_id_witness :
  (1 <= NotificationManager.get_unread_count
          (mark_as_read_times (payload := unit) 3 "system_status_1741780800"
             two_notifications))%nat.
Proof.
  refine (proj2 (proj2 (same_second_same_id (payload := unit)
            1741780800.5 1741780800.9 march_3rd_noon march_20th_noon SYSTEM_STATUS
            "a" "first" None "normal" "b" "second" None "normal" 3
            (NotificationManager.init 100) _ _)));
    [vm_compute; discriminate | vm_compute; reflexivity].
Defined.

Lemma clear_old_notifications_effect_witness :
  fst (NotificationManager.clear_old_notifications march_3rd_noon 7
         two_notifications) = Raise value_error.
Proof.
  refine (proj1 (proj2 (clear_old_notifications_effect march_3rd_noon 7
                          two_notifications)) _).
  cbn. lia.
Defined.

(** ** Keyword sentiment and its aggregation *)

Section SentimentFacts.

Lemma of_nat_nonneg (n : nat) : 0 <= inject_Z (Z.of_nat n).
Proof. change 0 with (inject_Z 0). rewrite <- Zle_Qle. lia. Qed.

Lemma of_nat_plus (a b : nat) :
  inject_Z (Z.of_nat (a + b)) == inject_Z (Z.of_nat a) + inject_Z (Z.of_nat b).
Proof. rewrite Nat2Z.inj_add, inject_Z_plus. reflexivity. Qed.

Lemma of_nat_ge (a b : nat) :
  (a <= b)%nat <-> inject_Z (Z.of_nat a) <= inject_Z (Z.of_nat b).
Proof. rewrite <- Zle_Qle. lia. Qed.

(** X22.  [analyze_sentiment] gives a score between -1 and 1 and a
    confidence between 0 and 1.  The confidence is 0 exactly when the
    text holds no keyword, and it exceeds 0.1, the bar the aggregators
    set, exactly when at least two different keywords occur: a text
    with a single keyword is never taken into account. *)
Theorem analyze_sentiment_sound text :
  let r := KeywordSentiment.analyze_sentiment text in
  let words := (KeywordSentiment.positive_count text
                + KeywordSentiment.negative_count text)%nat in
  -1 <= KeywordSentiment.sentiment_score r <= 1 /\
  0 <= KeywordSentiment.confidence r <= 1 /\
  (KeywordSentiment.confidence r == 0 <-> words = 0%nat) /\
  (Py.gt (KeywordSentiment.confidence r) 0.1 = true <-> (2 <= words)%nat) /\
  (words = 0%nat -> r = KeywordSentiment.no_sentiment).
Proof.
  cbv zeta. unfold KeywordSentiment.analyze_sentiment,
    KeywordSentiment.positive_count, KeywordSentiment.negative_count.
  assert (Hnone : forall words : nat,
            words = 0%nat ->
            -1 <= 0 <= 1 /\ 0 <= 0 <= 1 /\ (0 == 0 <-> words = 0%nat) /\
            (Py.gt 0 0.1 = true <-> (2 <= words)%nat) /\
            (words = 0%nat ->
             KeywordSentiment.no_sentiment = KeywordSentiment.no_sentiment)).
  { intros words ->. split; [lra |]. split; [lra |].
    split; [split; intros; reflexivity |].
    split; [| reflexivity]. split; [discriminate | lia]. }
  destruct (String.eqb_spec text "") as [-> | Hne].
  { apply Hnone. vm_compute. reflexivity. }
  set (p := KeywordSentiment.count KeywordSentiment.positive_keywords _).
  set (n := KeywordSentiment.count KeywordSentiment.negative_keywords _).
  clearbody p n.
  destruct (p + n =? 0)%nat eqn:E.
  { apply Nat.eqb_eq in E. apply Hnone, E. }
  clear Hnone.
  apply Nat.eqb_neq in E.
  cbn [KeywordSentiment.sentiment_score KeywordSentiment.confidence].
  pose proof (of_nat_nonneg p) as Hp. pose proof (of_nat_nonneg n) as Hn.
  pose proof (of_nat_plus p n) as Hsum.
  assert (Hone : 1 <= inject_Z (Z.of_nat (p + n)))
    by (change 1 with (inject_Z (Z.of_nat 1)); apply of_nat_ge; lia).
  assert (Htwo : (2 <= p + n)%nat <-> 1 < inject_Z (Z.of_nat (p + n)))
    by (change 1 with (inject_Z (Z.of_nat 1)); rewrite <- Zlt_Qlt; lia).
  set (P := inject_Z (Z.of_nat p)) in *. set (N := inject_Z (Z.of_nat n)) in *.
  set (T := inject_Z (Z.of_nat (p + n))) in *. clearbody P N T.
  split.
  { split.
    - apply Qle_shift_div_l; lra.
    - apply Qle_shift_div_r; lra. }
  assert (Hten : T / 10.0 == T * (1 # 10)) by (field; lra).
  set (c := T / 10.0) in *. clearbody c.
  unfold Py.min. destruct (Qlt_le_dec c 1.0) as [Hlt | Hge].
  - split; [split; lra |]. split; [split; [lra | lia] |].
    split; [| lia].
    rewrite gt_true, Htwo. split; intros H; lra.
  - split; [split; lra |]. split; [split; [lra | lia] |].
    split; [| lia].
    rewrite gt_true, Htwo. split; intros H; lra.
Qed.

End SentimentFacts.

(** ** Bounds of the aggregated sentiment *)

Section AggregateFacts.

Import NewsParserV1.








End AggregateFacts.



(** ** Consistency of an interpreted signal *)

Section SignalFacts.

(** X24.  In every signal that [_interpret_signal] builds: a HOLD has a
    confidence below 60 and with it a High risk level, so it stays
    under the bar of 65 that [batch_generate_signals] sets; a BUY or
    SELL has a confidence between 52 and 95; a Low risk level comes only
    with Strong strength, and Weak strength only with a High risk
    level. *)
Theorem interpret_signal_consistent final_score t p v s :
  let sg := SignalGenerator._interpret_signal final_score t p v s in
  (sg_action sg = "HOLD"%string ->
   sg_confidence sg < 60 /\ sg_risk_level sg = "High"%string /\
   Py.ge (sg_confidence sg) SignalGenerator.min_confidence_threshold = false) /\
  (sg_action sg <> "HOLD"%string -> 52 <= sg_confidence sg <= 95) /\
  (sg_risk_level sg = "Low"%string -> sg_strength sg = "Strong"%string) /\
  (sg_strength sg = "Weak"%string -> sg_risk_level sg = "High"%string).
Proof.
  cbv zeta. unfold SignalGenerator._interpret_signal,
    SignalGenerator.min_confidence_threshold,
    SignalGenerator.strong_signal_threshold,
    SignalGenerator.weak_signal_threshold.
  generalize (Py.np_std_gt [t; p; v; s] 25) (Py.np_std_lt [t; p; v; s] 15).
  intros wide narrow.
  destruct (Py.ge final_score 65) eqn:E1;
    [apply ge_true in E1
    | apply ge_false in E1; destruct (Py.le final_score 35) eqn:E2;
      [apply le_true in E2 | apply le_false in E2]];
    destruct wide; [| destruct narrow | | destruct narrow | | destruct narrow];
    cbn [sg_action sg_confidence sg_strength sg_risk_level];
    match goal with
    | |- context [Py.max 0 (Py.min 95 ?c)] =>
        pose proof (clamp_bounds 0 95 c ltac:(lra)) as Hclamp;
        assert (Hid : c <= 95 -> Py.max 0 (Py.min 95 c) == c)
          by (intros Hc; apply clamp_id; lra);
        assert (Hcap : 95 <= c -> Py.max 0 (Py.min 95 c) == 95)
          by (intros Hc; unfold Py.max, Py.min;
              destruct (Qlt_le_dec c 95);
              [destruct (Qlt_le_dec 0 c); lra | destruct (Qlt_le_dec 0 95); lra]);
        set (clamped := Py.max 0 (Py.min 95 c)) in *;
        destruct (Qlt_le_dec c 95) as [Hc | Hc];
        [specialize (Hid ltac:(lra)); clear Hcap
        | specialize (Hcap Hc); clear Hid]
    end;
    clearbody clamped;
    repeat case_cmp;
    (split; [| split; [| split]]);
    try (intros H; first [discriminate H | exfalso; apply H; reflexivity | reflexivity]);
    try (intros _; first [split; [| split; [reflexivity |]] | split]);
    try rewrite ge_false;
    try lra.
Qed.

End SignalFacts.
